(** * token-server/server.js: a shallow embedding and its specification

    The program is an Express application: three library middlewares
    ([cors()], [express.json()], [express.static('public')]) followed by two
    GET routes and a call to [app.listen].  The embedding keeps the order in
    which the source registers them and gives each library layer the
    behaviour of its default configuration, since that is how the source
    instantiates it.

    Modelling boundaries:
    - the source pins no version of the framework: the world says whether
      it runs Express 4 or Express 5, and the layers follow that line where
      the two differ (dotfiles, the [listen] callback);
    - a request holds its path percent-decoded; the static layer resolves
      [.] and [..] segments itself, as the library does; the target of a
      redirection, which the library builds from the raw request target,
      is the world's [location] function of the path and the query string;
    - of the response headers only those decided by the application, its
      CORS layer and the redirection are kept (no Date, no ETag, no
      Content-Type of a file, ...);
    - the text of the framework's pages is not modelled: [BPage] is the
      page for a status, [BError] the page for an error, with or without
      the stack trace that NODE_ENV selects;
    - what the framework does with conditional and range requests
      (If-None-Match, Range, ...) is the world's [revalidate] function, which
      is only consulted for requests that carry such headers. *)

From Stdlib Require Import String Ascii List Bool Arith Lia DecimalString.
Import ListNotations.
Open Scope string_scope.

(** ** Strings and paths *)

Module Str.

Definition lower_ascii (c : ascii) : ascii :=
  let n := nat_of_ascii c in
  if Nat.leb 65 n && Nat.leb n 90 then ascii_of_nat (n + 32) else c.

Fixpoint lower (s : string) : string :=
  match s with
  | EmptyString => EmptyString
  | String c r => String (lower_ascii c) (lower r)
  end.

Fixpoint ends_with_slash (s : string) : bool :=
  match s with
  | EmptyString => false
  | String c EmptyString => Ascii.eqb c "/"%char
  | String _ r => ends_with_slash r
  end.

Definition starts_with_slash (s : string) : bool :=
  match s with
  | String c _ => Ascii.eqb c "/"%char
  | EmptyString => false
  end.

(** [s] without its last character when that is a slash. *)
Fixpoint chop_slash (s : string) : string :=
  match s with
  | EmptyString => EmptyString
  | String c EmptyString => if Ascii.eqb c "/"%char then EmptyString else s
  | String c r => String c (chop_slash r)
  end.

(** [s.split('/')] *)
Fixpoint split (s : string) : list string :=
  match s with
  | EmptyString => [EmptyString]
  | String c r =>
      if Ascii.eqb c "/"%char then EmptyString :: split r
      else match split r with
           | h :: t => String c h :: t
           | [] => [String c EmptyString]
           end
  end.

(** The segments of [path.normalize('./' + p)]: empty and [.] segments
    dropped, [..] removing the segment before it, or kept when there is
    none to remove. *)
Fixpoint resolve (acc : list string) (segs : list string) : list string :=
  match segs with
  | [] => rev acc
  | seg :: rest =>
      if String.eqb seg "" || String.eqb seg "." then resolve acc rest
      else if String.eqb seg ".." then
        match acc with
        | [] => resolve [".."] rest
        | a :: acc' =>
            if String.eqb a ".." then resolve (".." :: acc) rest
            else resolve acc' rest
        end
      else resolve (seg :: acc) rest
  end.

Definition normalize (p : string) : list string := resolve [] (split p).

Fixpoint has_slash (s : string) : bool :=
  match s with
  | EmptyString => false
  | String c r => Ascii.eqb c "/"%char || has_slash r
  end.

Fixpoint has_nul (s : string) : bool :=
  match s with
  | EmptyString => false
  | String c r => Ascii.eqb c zero || has_nul r
  end.

(** Decimal rendering of a number, as a template literal does it. *)
Definition of_nat (n : nat) : string :=
  NilEmpty.string_of_uint (Nat.to_uint n).

End Str.

Module Path.

(** [path.join(a, b)] for an absolute, normalised [a] and a relative or
    slash-led [b]: exactly one separator between the two. *)
Definition join (a b : string) : string :=
  match Str.ends_with_slash a, Str.starts_with_slash b with
  | true, true => Str.chop_slash a ++ b
  | false, false => a ++ "/" ++ b
  | _, _ => a ++ b
  end.

(** A path segment longer than one character that starts with a dot: the
    file-sending library refuses such paths (dotfiles are ignored, [..]
    is forbidden). *)
Definition is_dot_segment (seg : string) : bool :=
  match seg with
  | String c (String _ _) => Ascii.eqb c "."%char
  | _ => false
  end.

Definition contains_dotfile (p : string) : bool :=
  existsb is_dot_segment (Str.split p).

(** A normalised relative path that starts with [..] leaves its root. *)
Definition escapes (segs : list string) : bool :=
  match segs with
  | seg :: _ => String.eqb seg ".."
  | [] => false
  end.

(** A proper name: not empty, not [.] or [..], and without slash. *)
Definition proper (seg : string) : bool :=
  negb (String.eqb seg "") && negb (String.eqb seg ".")
  && negb (String.eqb seg "..") && negb (Str.has_slash seg).

(** [root/seg1/.../segn] *)
Definition under (root : string) (segs : list string) : string :=
  fold_left join segs root.

End Path.

(** ** Requests, responses and the world the server runs in *)

Inductive Method : Type := GET | HEAD | POST | PUT | PATCH | DELETE | OPTIONS.

(** Why the JSON body parser rejects a body. *)
Inductive JsonFault : Type := Malformed | TooLarge | UnsupportedEncoding.

(** The request body as the body parser classifies it: no body at all, a
    body that is not declared as JSON, or a body declared as JSON which the
    parser accepts ([None]) or rejects. *)
Inductive ReqBody : Type :=
| NoBody
| OtherBody
| JsonBody (fault : option JsonFault).

Definition Headers : Type := list (string * string).

Record Request : Type := mkRequest {
  method : Method;
  path : string;                (* pathname, without the query string *)
  query : string;               (* text after the question mark, or empty *)
  reqHeaders : Headers;         (* names in lower case, as Node delivers them *)
  body : ReqBody
}.

Inductive Body : Type :=
| BEmpty
| BFile (content : string)
| BJson (obj : list (string * string))
| BPage (code : nat)
| BPartial (content : string)
| BError (code : nat) (stack : bool).

Record Response : Type := mkResponse {
  status : nat;
  resHeaders : Headers;
  resBody : Body
}.

Inductive Node : Type := File (content : string) | Dir.

(** The two lines of the framework the program can be installed with. *)
Inductive Version : Type := Express4 | Express5.

Record World : Type := mkWorld {
  cwd : string;                       (* process.cwd() when the app is built *)
  dirname : string;                   (* __dirname of server.js *)
  fs : list (string * Node);          (* the file system, by absolute path *)
  revalidate : Request -> Body -> option (nat * Body);
  env : list (string * string);       (* process.env *)
  argv : list string;                 (* process.argv *)
  portFree : nat -> bool;             (* can the port be bound? *)
  express : Version;                  (* the installed framework *)
  location : string -> string -> string
                                      (* where a directory at this path,
                                         asked with this query, is sent *)
}.

Fixpoint assoc {A : Type} (k : string) (l : list (string * A)) : option A :=
  match l with
  | [] => None
  | (k', v) :: r => if String.eqb k k' then Some v else assoc k r
  end.

Definition stat (w : World) (p : string) : option Node := assoc p (fs w).

Definition header (name : string) (hs : Headers) : option string :=
  assoc name (map (fun kv => (Str.lower (fst kv), snd kv)) hs).

Definition Method_eqb (a b : Method) : bool :=
  match a, b with
  | GET, GET | HEAD, HEAD | POST, POST | PUT, PUT
  | PATCH, PATCH | DELETE, DELETE | OPTIONS, OPTIONS => true
  | _, _ => false
  end.

(** ** The framework: layers, their outcomes and the dispatcher *)

(** An error passed to [next(err)] or thrown by a handler; [errStatus] is
    its [status] property when it has one. *)
Record HttpError : Type := mkError { errStatus : option nat }.

(** What a layer does with a request: call [next()], possibly after setting
    response headers; call [next(err)] or throw; or end the response. *)
Inductive Outcome : Type :=
| Next (hs : Headers)
| Raise (e : HttpError) (hs : Headers)
| Reply (r : Response).

Definition Handler : Type := World -> Request -> Headers -> Outcome.

Inductive LayerId : Type := Lcors | Ljson | Lstatic | Lroot | Ltoken | Lcustom.

Inductive Layer : Type :=
| Use (id : LayerId) (h : Handler)                      (* app.use(fn) *)
| Get (id : LayerId) (route : string) (h : Handler)     (* app.get(route, fn) *)
| OnError (id : LayerId) (h : HttpError -> Handler).    (* app.use((err, ...) => ...) *)

Definition layer_id (l : Layer) : LayerId :=
  match l with Use i _ | Get i _ _ | OnError i _ => i end.

Definition is_error_handler (l : Layer) : bool :=
  match l with OnError _ _ => true | _ => false end.

Definition is_route (l : Layer) : bool :=
  match l with Get _ _ _ => true | _ => false end.

(** Route matching with the router's defaults: case-insensitive, and an
    optional trailing slash. *)
Definition route_matches (route p : string) : bool :=
  let base := Str.lower (Str.chop_slash route) in
  let p' := Str.lower p in
  String.eqb p' base || String.eqb p' (base ++ "/").

(** [app.get] also answers HEAD requests when no HEAD route is declared. *)
Definition get_applies (route : string) (req : Request) : bool :=
  (Method_eqb (method req) GET || Method_eqb (method req) HEAD)
  && route_matches route (path req).

(** Headers that make a request conditional or partial. *)
Definition validator_headers : list string :=
  ["if-none-match"; "if-modified-since"; "if-match";
   "if-unmodified-since"; "if-range"; "range"].

Definition plain (req : Request) : bool :=
  forallb (fun n => match header n (reqHeaders req) with
                    | None => true
                    | Some _ => false
                    end) validator_headers.

(** Sending a representation: 200 with the representation itself, unless
    the request is conditional or partial and the framework decides
    otherwise. *)
Definition deliver (w : World) (req : Request) (hs : Headers) (b : Body)
  : Response :=
  if plain req then mkResponse 200 hs b
  else match revalidate w req b with
       | None => mkResponse 200 hs b
       | Some (st, b') => mkResponse st hs b'
       end.

(** The framework's last resort when no layer ended the response: 404 when
    nothing matched, otherwise the error's status when it is a 4xx or 5xx
    and 500 when it is not. *)
Definition error_status (e : HttpError) : nat :=
  match errStatus e with
  | Some s => if Nat.leb 400 s && Nat.ltb s 600 then s else 500
  | None => 500
  end.

(** [process.env.NODE_ENV]; the framework takes an unset or empty value
    as [development]. *)
Definition node_env (w : World) : string :=
  match assoc "NODE_ENV" (env w) with
  | Some v => if String.eqb v "" then "development" else v
  | None => "development"
  end.

Definition production (w : World) : bool := String.eqb (node_env w) "production".

(** The page for an error shows the stack trace unless NODE_ENV is
    [production]. *)
Definition error_page (w : World) (code : nat) : Body :=
  BError code (negb (production w)).

Definition finalhandler (w : World) (err : option HttpError) (hs : Headers)
  : Response :=
  match err with
  | None => mkResponse 404 hs (BPage 404)
  | Some e => mkResponse (error_status e) hs (error_page w (error_status e))
  end.

(** The dispatcher walks the stack in registration order.  [run] is the
    normal mode, [run_err] the mode entered by [next(err)], in which only
    error-handling layers are tried.  The second component is the list of
    layers whose function was called, in order. *)
Fixpoint run (w : World) (req : Request) (stack : list Layer)
         (hs : Headers) (seen : list LayerId) : Response * list LayerId :=
  match stack with
  | [] => (finalhandler w None hs, rev seen)
  | Use i h :: rest =>
      match h w req hs with
      | Next hs' => run w req rest hs' (i :: seen)
      | Raise e hs' => run_err w req rest e hs' (i :: seen)
      | Reply r => (r, rev (i :: seen))
      end
  | Get i route h :: rest =>
      if get_applies route req then
        match h w req hs with
        | Next hs' => run w req rest hs' (i :: seen)
        | Raise e hs' => run_err w req rest e hs' (i :: seen)
        | Reply r => (r, rev (i :: seen))
        end
      else run w req rest hs seen
  | OnError _ _ :: rest => run w req rest hs seen
  end
with run_err (w : World) (req : Request) (stack : list Layer)
         (e : HttpError) (hs : Headers) (seen : list LayerId)
  : Response * list LayerId :=
  match stack with
  | [] => (finalhandler w (Some e) hs, rev seen)
  | OnError i h :: rest =>
      match h e w req hs with
      | Next hs' => run w req rest hs' (i :: seen)
      | Raise e' hs' => run_err w req rest e' hs' (i :: seen)
      | Reply r => (r, rev (i :: seen))
      end
  | _ :: rest => run_err w req rest e hs seen
  end.

(** A HEAD request gets the headers of the GET response and no body. *)
Definition finish (req : Request) (r : Response) : Response :=
  if Method_eqb (method req) HEAD
  then mkResponse (status r) (resHeaders r) BEmpty
  else r.

(** ** The library middlewares, in their default configuration *)

(** [cors()]: every response allows any origin; an OPTIONS request is
    treated as a preflight and answered at once with 204. *)
Definition cors : Handler := fun _ req hs =>
  let origin := [("Access-Control-Allow-Origin", "*")] in
  if Method_eqb (method req) OPTIONS then
    let allowed :=
      match header "access-control-request-headers" (reqHeaders req) with
      | Some v => if String.eqb v "" then []
                  else [("Access-Control-Allow-Headers", v)]
      | None => []
      end in
    Reply (mkResponse 204
             (hs ++ origin
                 ++ [("Access-Control-Allow-Methods",
                      "GET,HEAD,PUT,PATCH,POST,DELETE");
                     ("Vary", "Access-Control-Request-Headers")]
                 ++ allowed
                 ++ [("Content-Length", "0")])%list
             BEmpty)
  else Next (hs ++ origin)%list.

Definition fault_status (f : JsonFault) : nat :=
  match f with
  | Malformed => 400
  | TooLarge => 413
  | UnsupportedEncoding => 415
  end.

(** [express.json()]: a body declared as JSON is parsed whatever the
    method; a body the parser rejects becomes an error with a 4xx status. *)
Definition json : Handler := fun _ req hs =>
  match body req with
  | JsonBody (Some f) => Raise (mkError (Some (fault_status f))) hs
  | _ => Next hs
  end.

Inductive Lookup : Type :=
| Hit (content : string)
| Redirect (target : string)
| Miss.

(** Which paths the file-sending library refuses for their dot
    segments, given the parts of the path: Express 4 looks at the last
    part only, Express 5 at every part. *)
Definition dot_refused (v : Version) (parts : list string) : bool :=
  match v with
  | Express4 => Path.is_dot_segment (last parts "")
  | Express5 => existsb Path.is_dot_segment parts
  end.

(** What the static middleware finds for a request path under [root].
    The path is normalised first; one that leaves the root, holds a NUL or
    is refused for a dot segment is not found.  A path with a trailing
    slash stands for the [index.html] of that directory, and a directory
    without one is redirected. *)
Definition static_lookup (w : World) (root : string) (req : Request) : Lookup :=
  let p := path req in
  let segs := Str.normalize p in
  let slash := Str.ends_with_slash p in
  if Str.has_nul p then Miss
  else if Path.escapes segs then Miss
  else if dot_refused (express w) (segs ++ (if slash then [""] else []))%list
  then Miss
  else if slash then
    match stat w (Path.join (Path.under root segs) "index.html") with
    | Some (File c) => Hit c
    | _ => Miss
    end
  else
    match stat w (Path.under root segs) with
    | Some (File c) => Hit c
    | Some Dir => Redirect (location w p (query req))
    | None => Miss
    end.

(** [express.static(dir)]: [dir] is resolved against the working
    directory; only GET and HEAD are served; anything not found falls
    through to the next layer. *)
Definition static_root (w : World) (dir : string) : string :=
  Path.join (cwd w) dir.

Definition static (dir : string) : Handler := fun w req hs =>
  if Method_eqb (method req) GET || Method_eqb (method req) HEAD then
    match static_lookup w (static_root w dir) req with
    | Hit c => Reply (deliver w req hs (BFile c))
    | Redirect loc =>
        Reply (mkResponse 301 (hs ++ [("Location", loc)])%list (BPage 301))
    | Miss => Next hs
    end
  else Next hs.

(** [res.sendFile(abs)]: a missing file, or a path refused for a dot
    segment, is a 404 error handed to [next]; a directory is skipped with
    [next()]. *)
Definition sendFile (abs : string) : Handler := fun w req hs =>
  if dot_refused (express w) (Str.split abs) then Raise (mkError (Some 404)) hs
  else match stat w abs with
       | Some (File c) => Reply (deliver w req hs (BFile c))
       | Some Dir => Next hs
       | None => Raise (mkError (Some 404)) hs
       end.

(** [res.json(obj)] *)
Definition res_json (obj : list (string * string)) : Handler := fun w req hs =>
  Reply (deliver w req
           (hs ++ [("Content-Type", "application/json; charset=utf-8")])%list
           (BJson obj)).

(** ** server.js *)

Definition PORT : nat := 3000.

(** [app.get('/', ...)]: [res.sendFile(path.join(__dirname, 'public', 'index.html'))] *)
Definition entry_file (w : World) : string :=
  Path.join (Path.join (dirname w) "public") "index.html".

Definition root_handler : Handler := fun w => sendFile (entry_file w) w.

(** [app.get('/api/get-token', ...)] *)
Definition token_payload : list (string * string) :=
  [("message", "Use the web interface to get your JWT token");
   ("url", "http://localhost:" ++ Str.of_nat PORT)].

Definition token_handler : Handler := res_json token_payload.

(** The stack, in the order of the [app.use] and [app.get] calls. *)
Definition app : list Layer :=
  [Use Lcors cors;
   Use Ljson json;
   Use Lstatic (static "public");
   Get Lroot "/" root_handler;
   Get Ltoken "/api/get-token" token_handler].

(** The response to a request together with the layers that were called. *)
Definition handle (w : World) (req : Request) : Response * list LayerId :=
  let (r, seen) := run w req app [] [] in (finish req r, seen).

Definition respond (w : World) (req : Request) : Response := fst (handle w req).

Definition called (w : World) (req : Request) : list LayerId := snd (handle w req).

(** The callback of [app.listen]: one entry per [console.log] call. *)
Definition startup_lines : list string :=
  ["🚀 Clerk Token Server запущено!";
   "📱 Відкрийте: http://localhost:" ++ Str.of_nat PORT;
   "🔑 Отримайте JWT токен через веб-інтерфейс";
   "";
   "Інструкція:";
   "1. Відкрийте http://localhost:3000 у браузері";
   "2. Введіть ваш Clerk Publishable Key";
   "3. Увійдіть в систему";
   "4. Скопіюйте JWT токен для Postman"].

(** The running server: the world it reads, the port it is bound to and
    what it has written to the console. *)
Record Server : Type := mkServer {
  world : World;
  bound : nat;
  console : list string
}.

(** [app.listen(port, callback)]: the server that results when the port
    can be bound, with the lines its callback has printed. *)
Definition listen (w : World) (port : nat) (callback : list string)
  : option Server :=
  if portFree w port then Some (mkServer w port callback) else None.

Definition start (w : World) : option Server := listen w PORT startup_lines.







(** Replacing the environment variables and the command line of a world. *)
Definition with_env_argv (e : list (string * string)) (a : list string)
           (w : World) : World :=
  mkWorld (cwd w) (dirname w) (fs w) (revalidate w) e a (portFree w)
          (express w) (location w).

(** Does the JSON body parser let the request through? *)
Definition json_accepts (b : ReqBody) : bool :=
  match b with
  | JsonBody (Some _) => false
  | _ => true
  end.

(** The header the CORS layer adds, and the one [res.json] adds. *)
Definition allow_any_origin : Headers := [("Access-Control-Allow-Origin", "*")].

Definition json_type : Headers :=
  [("Content-Type", "application/json; charset=utf-8")].

(** The file the static layer sends for the request path [/]. *)
Definition static_entry (w : World) : string :=
  Path.join (Path.join (static_root w "public") "/") "index.html".

(** ** Headers that survive the stack

    A layer keeps a header when every outcome it can produce from headers
    that hold it still holds it. *)
Definition carries (h : string * string) (hs : Headers) : Prop := In h hs.

Definition outcome_carries (h : string * string) (o : Outcome) : Prop :=
  match o with
  | Next hs => carries h hs
  | Raise _ hs => carries h hs
  | Reply r => carries h (resHeaders r)
  end.

Definition handler_keeps (h : string * string) (f : Handler) : Prop :=
  forall w req hs, carries h hs -> outcome_carries h (f w req hs).

Definition layer_keeps (h : string * string) (l : Layer) : Prop :=
  match l with
  | Use _ f => handler_keeps h f
  | Get _ _ f => handler_keeps h f
  | OnError _ f => forall e, handler_keeps h (f e)
  end.

(** ** Handlers and the environment

    A layer ignores the environment when replacing the environment
    variables and the command line never changes what it does. *)
Definition handler_ignores_env (h : Handler) : Prop :=
  forall w e a req hs, h (with_env_argv e a w) req hs = h w req hs.

Definition layer_ignores_env (l : Layer) : Prop :=
  match l with
  | Use _ h => handler_ignores_env h
  | Get _ _ h => handler_ignores_env h
  | OnError _ h => forall err, handler_ignores_env (h err)
  end.

(** Two responses that differ at most in whether their error page shows
    the stack trace. *)
Definition same_but_stack (r r' : Response) : Prop :=
  status r = status r' /\
  resHeaders r = resHeaders r' /\
  (resBody r = resBody r' \/
   exists code b b', resBody r = BError code b /\ resBody r' = BError code b').

(** ** Sample worlds and requests *)

Module Sample.

Definition always_full : Request -> Body -> option (nat * Body) :=
  fun _ _ => None.

(** The redirection target for a request whose raw target needs no
    escaping: the path, a slash, and the query string if there is one. *)
Definition literal_location (p q : string) : string :=
  p ++ "/" ++ (if String.eqb q "" then "" else "?" ++ q).

Definition files : list (string * Node) :=
  [("/srv/token-server/public", Dir);
   ("/srv/token-server/public/index.html", File "<html>token page</html>");
   ("/srv/token-server/public/app.js", File "console.log(1)");
   ("/srv/token-server/public/img", Dir)].

(** The server started from its own directory. *)
Definition home : World :=
  mkWorld "/srv/token-server" "/srv/token-server" files always_full
          [] [] (fun _ => true) Express4 literal_location.

(** The same installation started from the parent directory. *)
Definition parent : World :=
  mkWorld "/srv" "/srv/token-server" files always_full
          [] [] (fun _ => true) Express4 literal_location.

(** An installation with a file at [public/api/get-token]. *)
Definition shadowed : World :=
  mkWorld "/srv/token-server" "/srv/token-server"
          (("/srv/token-server/public/api/get-token", File "static text")
             :: files)
          always_full [] [] (fun _ => true) Express5 literal_location.

Definition get (p : string) : Request := mkRequest GET p "" [] NoBody.

(** A GET request that carries a JSON body the parser rejects. *)
Definition get_malformed (p : string) : Request :=
  mkRequest GET p "" [("content-type", "application/json");
                      ("content-length", "4")]
            (JsonBody (Some Malformed)).

Definition preflight (p : string) : Request :=
  mkRequest OPTIONS p "" [] NoBody.

End Sample.

(** ** Further vocabulary *)

(** The same request sent with the HEAD method. *)
Definition as_head (req : Request) : Request :=
  mkRequest HEAD (path req) (query req) (reqHeaders req) (body req).

Definition without_body (r : Response) : Response :=
  mkResponse (status r) (resHeaders r) BEmpty.

(** The same request with another query string. *)
Definition with_query (q : string) (req : Request) : Request :=
  mkRequest (method req) (path req) q (reqHeaders req) (body req).

(** The framework's default "not found" page. *)
Definition not_found (hs : Headers) : Response := mkResponse 404 hs (BPage 404).

(** The framework's page for the 404 error of [res.sendFile]. *)
Definition missing (w : World) (hs : Headers) : Response :=
  mkResponse 404 hs (error_page w 404).

(** The sequences of layers a request can run through. *)
Definition call_paths : list (list LayerId) :=
  [[Lcors];
   [Lcors; Ljson];
   [Lcors; Ljson; Lstatic];
   [Lcors; Ljson; Lstatic; Lroot];
   [Lcors; Ljson; Lstatic; Ltoken]].

Module Scenario.

(** An installation below a directory whose name starts with a dot,
    started from the parent of the script's directory. *)
Definition dotted : World :=
  mkWorld "/home/dev/.apps" "/home/dev/.apps/token-server"
          [("/home/dev/.apps/token-server/public/index.html",
            File "<html>token page</html>")]
          Sample.always_full [] [] (fun _ => true)
          Express5 Sample.literal_location.

(** An installation without its entry file. *)
Definition no_entry : World :=
  mkWorld "/srv/token-server" "/srv/token-server"
          [("/srv/token-server/public", Dir);
           ("/srv/token-server/public/.env", File "SECRET=1")]
          Sample.always_full [] [] (fun _ => true)
          Express4 Sample.literal_location.


Definition post (p : string) : Request :=
  mkRequest POST p "" [("content-type", "application/json")] (JsonBody None).

Definition post_too_large (p : string) : Request :=
  mkRequest POST p "" [("content-type", "application/json")]
            (JsonBody (Some TooLarge)).

Definition preflight_with_headers (p : string) : Request :=
  mkRequest OPTIONS p ""
            [("origin", "https://app.example");
             ("access-control-request-headers", "authorization")]
            (JsonBody (Some Malformed)).

End Scenario.

(** * Properties *)

(** ** Strings: what lower-casing and joining preserve *)

Lemma append_assoc (a b c : string) : (a ++ b) ++ c = a ++ (b ++ c).
Proof. induction a as [|x a IH]; cbn; [reflexivity | now rewrite IH]. Qed.

Lemma lower_ascii_slash (c : ascii) :
  Ascii.eqb (Str.lower_ascii c) "/"%char = Ascii.eqb c "/"%char.
Proof.
  destruct c as [b0 b1 b2 b3 b4 b5 b6 b7].
  destruct b0, b1, b2, b3, b4, b5, b6, b7; reflexivity.
Qed.

Lemma lower_ascii_dot (c : ascii) :
  Ascii.eqb (Str.lower_ascii c) "."%char = Ascii.eqb c "."%char.
Proof.
  destruct c as [b0 b1 b2 b3 b4 b5 b6 b7].
  destruct b0, b1, b2, b3, b4, b5, b6, b7; reflexivity.
Qed.

Lemma split_lower (s : string) :
  Str.split (Str.lower s) = map Str.lower (Str.split s).
Proof.
  induction s as [|c r IH]; [reflexivity|].
  cbn [Str.lower Str.split]. rewrite lower_ascii_slash, IH.
  destruct (Ascii.eqb c "/"%char); [reflexivity|].
  destruct (Str.split r); reflexivity.
Qed.

Lemma is_dot_segment_lower (seg : string) :
  Path.is_dot_segment (Str.lower seg) = Path.is_dot_segment seg.
Proof.
  destruct seg as [|c [|d r]]; try reflexivity.
  cbn [Str.lower Path.is_dot_segment]. apply lower_ascii_dot.
Qed.

Lemma eqb_lower_empty (s : string) :
  String.eqb (Str.lower s) "" = String.eqb s "".
Proof. destruct s; reflexivity. Qed.

Lemma eqb_lower_dot (s : string) :
  String.eqb (Str.lower s) "." = String.eqb s ".".
Proof.
  destruct s as [|c r]; [reflexivity|].
  cbn [Str.lower String.eqb]. rewrite lower_ascii_dot.
  destruct (Ascii.eqb c "."%char); [|reflexivity]. apply eqb_lower_empty.
Qed.

Lemma eqb_lower_dotdot (s : string) :
  String.eqb (Str.lower s) ".." = String.eqb s "..".
Proof.
  destruct s as [|c r]; [reflexivity|].
  cbn [Str.lower String.eqb]. rewrite lower_ascii_dot.
  destruct (Ascii.eqb c "."%char); [|reflexivity]. apply eqb_lower_dot.
Qed.

(** Normalising commutes with lower-casing. *)
Lemma resolve_lower (segs acc : list string) :
  Str.resolve (map Str.lower acc) (map Str.lower segs) =
  map Str.lower (Str.resolve acc segs).
Proof.
  revert acc. induction segs as [|seg rest IH]; intros acc.
  - cbn [map Str.resolve]. now rewrite map_rev.
  - cbn [map Str.resolve].
    rewrite eqb_lower_empty, eqb_lower_dot, eqb_lower_dotdot.
    destruct (String.eqb seg "" || String.eqb seg "."); [apply IH|].
    destruct (String.eqb seg "..").
    + destruct acc as [|x acc']; cbn [map].
      * apply (IH [".."]).
      * rewrite eqb_lower_dotdot.
        destruct (String.eqb x ".."); [apply (IH (".." :: x :: acc'))|].
        apply IH.
    + apply (IH (seg :: acc)).
Qed.

Lemma normalize_lower (p : string) :
  Str.normalize (Str.lower p) = map Str.lower (Str.normalize p).
Proof.
  unfold Str.normalize. rewrite split_lower. apply (resolve_lower _ []).
Qed.

Lemma last_lower (l : list string) :
  last (map Str.lower l) "" = Str.lower (last l "").
Proof.
  induction l as [|x [|y r] IH]; try reflexivity.
  change (last (map Str.lower (x :: y :: r)) "")
    with (last (map Str.lower (y :: r)) "").
  exact IH.
Qed.

(** A path whose last segment, once normalised, starts with a dot
    matches neither route. *)
Lemma dotfile_matches_no_route (p : string) :
  Path.is_dot_segment (last (Str.normalize p) "") = true ->
  route_matches "/" p = false /\ route_matches "/api/get-token" p = false.
Proof.
  intros Hd.
  rewrite <- is_dot_segment_lower, <- last_lower, <- normalize_lower in Hd.
  unfold route_matches.
  split; apply orb_false_iff; split; apply String.eqb_neq; intros E;
    rewrite E in Hd; vm_compute in Hd; discriminate Hd.
Qed.

(** A path whose last part starts with a dot is refused on both lines of
    the framework. *)
Lemma dot_refused_last (v : Version) (parts : list string) :
  Path.is_dot_segment (last parts "") = true ->
  dot_refused v parts = true.
Proof.
  intros H. destruct v; [exact H|]. cbn [dot_refused].
  induction parts as [|x [|y r] IH].
  - discriminate H.
  - cbn in *. now rewrite H.
  - change (existsb Path.is_dot_segment (x :: y :: r))
      with (Path.is_dot_segment x || existsb Path.is_dot_segment (y :: r)).
    rewrite IH; [apply orb_true_r | exact H].
Qed.

Lemma ends_with_slash_append (a b : string) :
  b <> EmptyString ->
  Str.ends_with_slash (a ++ b) = Str.ends_with_slash b.
Proof.
  intros Hb. induction a as [|c a IH]; [reflexivity|].
  cbn [String.append]. rewrite <- IH.
  destruct (a ++ b) as [|d s] eqn:E; [|reflexivity].
  exfalso. destruct a; cbn in E; [exact (Hb E)|discriminate E].
Qed.

(** A directory joined with a name that neither is empty nor has a slash
    at either end: the directory, then the name after one slash. *)
Lemma join_name (d name : string) :
  Str.starts_with_slash name = false ->
  exists sep, Path.join d name = d ++ sep ++ name.
Proof.
  intros Hn. unfold Path.join. rewrite Hn.
  destruct (Str.ends_with_slash d).
  - now exists "".
  - now exists "/".
Qed.

(** The static layer's entry file is the [index.html] of its root. *)
Lemma static_entry_is_index (w : World) :
  static_entry w = Path.join (static_root w "public") "index.html".
Proof.
  unfold static_entry, static_root.
  destruct (join_name (cwd w) "public" eq_refl) as [sep E]. rewrite E.
  set (R := cwd w ++ sep ++ "public").
  assert (HR : Str.ends_with_slash R = false).
  { unfold R. rewrite <- append_assoc.
    now rewrite ends_with_slash_append. }
  assert (HR' : Str.ends_with_slash (R ++ "/") = true)
    by now rewrite ends_with_slash_append.
  unfold Path.join. rewrite HR. cbn [Str.starts_with_slash Ascii.eqb].
  cbn. rewrite HR'. apply append_assoc.
Qed.


(** The static root never ends with a slash. *)
Lemma static_root_no_slash (w : World) :
  Str.ends_with_slash (static_root w "public") = false.
Proof.
  unfold static_root.
  destruct (join_name (cwd w) "public" eq_refl) as [sep E]. rewrite E.
  rewrite <- append_assoc. now rewrite ends_with_slash_append.
Qed.

Lemma join_extends (a b : string) :
  Str.ends_with_slash a = false -> exists x, Path.join a b = a ++ x.
Proof.
  intros Ha. unfold Path.join. rewrite Ha.
  destruct (Str.starts_with_slash b).
  - now exists b.
  - now exists ("/" ++ b).
Qed.

Lemma join_plain (a b : string) :
  Str.ends_with_slash a = false ->
  Str.starts_with_slash b = false ->
  Path.join a b = a ++ "/" ++ b.
Proof. intros Ha Hb. unfold Path.join. now rewrite Ha, Hb. Qed.

Lemma join_slashed (a b : string) :
  Str.ends_with_slash a = false ->
  Str.starts_with_slash b = true ->
  Path.join a b = a ++ b.
Proof. intros Ha Hb. unfold Path.join. now rewrite Ha, Hb. Qed.

(** A path none of whose segments starts with a dot is refused on
    neither line of the framework. *)
Lemma dot_refused_none (v : Version) (parts : list string) :
  existsb Path.is_dot_segment parts = false ->
  dot_refused v parts = false.
Proof.
  intros H. destruct v; [|exact H]. cbn [dot_refused].
  induction parts as [|x [|y r] IH]; [reflexivity| |].
  - cbn in *. now rewrite orb_false_r in H.
  - cbn [existsb] in H. apply orb_false_iff in H as [_ H].
    change (last (x :: y :: r) "") with (last (y :: r) ""). apply IH, H.
Qed.

(** ** The dispatcher on the application's stack *)

Example of_nat_port : Str.of_nat PORT = "3000".
Proof. reflexivity. Qed.

Example token_payload_value :
  token_payload =
  [("message", "Use the web interface to get your JWT token");
   ("url", "http://localhost:3000")].
Proof. reflexivity. Qed.

(** A request that is not a preflight and whose body the parser accepts
    reaches the static layer with the CORS header set. *)
Lemma run_past_parsers (w : World) (req : Request) :
  method req <> OPTIONS ->
  json_accepts (body req) = true ->
  run w req app [] [] =
  run w req
      [Use Lstatic (static "public");
       Get Lroot "/" root_handler;
       Get Ltoken "/api/get-token" token_handler]
      allow_any_origin [Ljson; Lcors].
Proof.
  intros Hm Hb. unfold app. cbn [run]. unfold cors at 1.
  destruct (method req) eqn:Em; try congruence; cbn [Method_eqb];
    unfold json at 1;
    destruct (body req) as [| |[f|]]; cbn in Hb; try discriminate;
    reflexivity.
Qed.

(** The static lookup of the token route's path is a [stat] of
    [api/get-token] under the root. *)
Lemma static_lookup_token (w : World) (req : Request) :
  path req = "/api/get-token" ->
  static_lookup w (static_root w "public") req =
  match stat w (Path.join (static_root w "public") "/api/get-token") with
  | Some (File c) => Hit c
  | Some Dir => Redirect (location w (path req) (query req))
  | None => Miss
  end.
Proof.
  intros Hp. unfold static_lookup. rewrite Hp.
  change (Str.has_nul "/api/get-token") with false.
  change (Str.normalize "/api/get-token") with ["api"; "get-token"].
  change (Str.ends_with_slash "/api/get-token") with false.
  cbn [Path.escapes String.eqb Ascii.eqb Bool.eqb List.app].
  rewrite dot_refused_none by reflexivity.
  cbn [Path.under fold_left].
  pose proof (static_root_no_slash w) as HR.
  assert (E : Path.join (Path.join (static_root w "public") "api") "get-token"
              = Path.join (static_root w "public") "/api/get-token").
  { rewrite (join_plain _ "api" HR eq_refl).
    rewrite join_plain;
      [|now rewrite ends_with_slash_append|reflexivity].
    rewrite (join_slashed _ "/api/get-token" HR eq_refl).
    now rewrite append_assoc. }
  rewrite E. reflexivity.
Qed.

(** The token route, when the request gets as far as its handler. *)
Lemma token_route_reached (w : World) (req : Request) :
  method req = GET ->
  path req = "/api/get-token" ->
  json_accepts (body req) = true ->
  stat w (Path.join (static_root w "public") "/api/get-token") = None ->
  plain req = true ->
  handle w req =
  (mkResponse 200 (allow_any_origin ++ json_type)%list (BJson token_payload),
   [Lcors; Ljson; Lstatic; Ltoken]).
Proof.
  intros Hm Hp Hb Hs Hpl. unfold handle.
  rewrite run_past_parsers by (try assumption; rewrite Hm; discriminate).
  cbn [run]. unfold static at 1. rewrite Hm. cbn [Method_eqb orb].
  rewrite (static_lookup_token w req Hp), Hs.
  unfold get_applies. rewrite Hm, Hp.
  replace (route_matches "/" "/api/get-token") with false by reflexivity.
  replace (route_matches "/api/get-token" "/api/get-token") with true
    by reflexivity.
  cbn [Method_eqb orb andb].
  unfold token_handler, res_json, deliver. rewrite Hpl.
  unfold finish. rewrite Hm. reflexivity.
Qed.

(** ** GET /api/get-token *)

(** C1, as the claim states it, fails: with a file at
    [public/api/get-token] the static layer answers a GET request to
    /api/get-token with that file, not with the JSON object. *)
Lemma get_token_not_for_every_request :
  ~ (forall (w : World) (req : Request),
        method req = GET ->
        path req = "/api/get-token" ->
        status (respond w req) = 200 /\
        resBody (respond w req) = BJson token_payload).
Proof.
  intros H.
  destruct (H Sample.shadowed (Sample.get "/api/get-token")
              eq_refl eq_refl) as [_ Hbody].
  vm_compute in Hbody. discriminate Hbody.
Qed.

(** C1 (amended): a GET request to /api/get-token that carries no
    conditional or range header, whose body the JSON parser does not
    reject, made while nothing exists at [api/get-token] under the static
    directory, is answered with status 200 and the JSON object whose
    [message] is the fixed instruction string and whose [url] is
    [http://localhost:3000]. *)
Theorem get_token_responds (w : World) (req : Request) :
  method req = GET ->
  path req = "/api/get-token" ->
  json_accepts (body req) = true ->
  stat w (Path.join (static_root w "public") "/api/get-token") = None ->
  plain req = true ->
  status (respond w req) = 200 /\
  resBody (respond w req) =
    BJson [("message", "Use the web interface to get your JWT token");
           ("url", "http://localhost:3000")] /\
  header "content-type" (resHeaders (respond w req)) =
    Some "application/json; charset=utf-8".
Proof.
  intros Hm Hp Hb Hs Hpl. unfold respond.
  rewrite (token_route_reached w req Hm Hp Hb Hs Hpl).
  repeat split; reflexivity.
Qed.

Lemma get_token_responds_witness :
  status (respond Sample.home (Sample.get "/api/get-token")) = 200 /\
  resBody (respond Sample.home (Sample.get "/api/get-token")) =
    BJson [("message", "Use the web interface to get your JWT token");
           ("url", "http://localhost:3000")] /\
  header "content-type"
         (resHeaders (respond Sample.home (Sample.get "/api/get-token"))) =
    Some "application/json; charset=utf-8".
Proof.
  apply (get_token_responds Sample.home (Sample.get "/api/get-token"));
    reflexivity.
Defined.

(** C6, as the claim states it, fails: the body of the request matters,
    since a JSON body the parser rejects is answered with 400 before the
    route is reached. *)
Lemma get_token_depends_on_body :
  ~ (forall (w : World) (r1 r2 : Request),
        method r1 = GET -> path r1 = "/api/get-token" ->
        method r2 = GET -> path r2 = "/api/get-token" ->
        respond w r1 = respond w r2).
Proof.
  intros H.
  specialize (H Sample.home (Sample.get "/api/get-token")
                (Sample.get_malformed "/api/get-token")
                eq_refl eq_refl eq_refl eq_refl).
  vm_compute in H. discriminate H.
Qed.

(** C6 (amended): any two GET requests to /api/get-token that reach the
    route handler (no conditional or range header, a body the JSON parser
    does not reject, nothing at [api/get-token] under the static
    directory) get identical responses, in the same run or in different
    ones, whatever their query strings, their other headers and their
    bodies. *)
Theorem get_token_fixed (w1 w2 : World) (r1 r2 : Request) :
  method r1 = GET -> path r1 = "/api/get-token" ->
  json_accepts (body r1) = true -> plain r1 = true ->
  stat w1 (Path.join (static_root w1 "public") "/api/get-token") = None ->
  method r2 = GET -> path r2 = "/api/get-token" ->
  json_accepts (body r2) = true -> plain r2 = true ->
  stat w2 (Path.join (static_root w2 "public") "/api/get-token") = None ->
  respond w1 r1 = respond w2 r2.
Proof.
  intros Hm1 Hp1 Hb1 Hpl1 Hs1 Hm2 Hp2 Hb2 Hpl2 Hs2. unfold respond.
  rewrite (token_route_reached w1 r1 Hm1 Hp1 Hb1 Hs1 Hpl1).
  rewrite (token_route_reached w2 r2 Hm2 Hp2 Hb2 Hs2 Hpl2).
  reflexivity.
Qed.

Lemma get_token_fixed_witness :
  respond Sample.home (Sample.get "/api/get-token") =
  respond Sample.parent
          (mkRequest GET "/api/get-token" "verbose=1"
                     [("accept", "text/html"); ("x-trace", "7")]
                     (JsonBody None)).
Proof.
  apply get_token_fixed; reflexivity.
Defined.

(** ** GET / and the static directory *)

(** The static layer answers a GET request for which its lookup finds a
    file, once the request is past the CORS and JSON layers. *)
Lemma static_hit (w : World) (req : Request) (c : string) :
  method req = GET ->
  json_accepts (body req) = true ->
  static_lookup w (static_root w "public") req = Hit c ->
  handle w req =
  (deliver w req allow_any_origin (BFile c), [Lcors; Ljson; Lstatic]).
Proof.
  intros Hm Hb Hl. unfold handle.
  rewrite run_past_parsers by (try assumption; rewrite Hm; discriminate).
  cbn [run]. unfold static at 1. rewrite Hm. cbn [Method_eqb orb].
  rewrite Hl. cbn [rev app]. unfold finish. rewrite Hm. reflexivity.
Qed.

(** For the path [/] the lookup is a [stat] of the static entry file. *)
Lemma static_lookup_root (w : World) (req : Request) :
  path req = "/" ->
  static_lookup w (static_root w "public") req =
  match stat w (static_entry w) with
  | Some (File c) => Hit c
  | _ => Miss
  end.
Proof.
  intros Hp. unfold static_lookup. rewrite Hp.
  change (Str.has_nul "/") with false.
  change (Str.normalize "/") with (@nil string).
  change (Str.ends_with_slash "/") with true.
  cbn [Path.escapes List.app].
  rewrite dot_refused_none by reflexivity.
  cbn [Path.under fold_left].
  now rewrite static_entry_is_index.
Qed.

(** The route for [/], when the static layer has no entry file. *)
Lemma root_route_reached (w : World) (req : Request) (c : string) :
  method req = GET ->
  path req = "/" ->
  json_accepts (body req) = true ->
  (forall c', stat w (static_entry w) <> Some (File c')) ->
  Path.contains_dotfile (entry_file w) = false ->
  stat w (entry_file w) = Some (File c) ->
  handle w req =
  (deliver w req allow_any_origin (BFile c), [Lcors; Ljson; Lstatic; Lroot]).
Proof.
  intros Hm Hp Hb Hno Hdot Hs. unfold handle.
  rewrite run_past_parsers by (try assumption; rewrite Hm; discriminate).
  cbn [run]. unfold static at 1. rewrite Hm. cbn [Method_eqb orb].
  rewrite (static_lookup_root w req Hp).
  assert (Hmiss : match stat w (static_entry w) with
                  | Some (File c0) => Hit c0
                  | _ => Miss
                  end = Miss).
  { destruct (stat w (static_entry w)) as [[c'|]|] eqn:E; try reflexivity.
    exfalso. exact (Hno c' eq_refl). }
  rewrite Hmiss.
  unfold get_applies at 1. rewrite Hm, Hp.
  replace (route_matches "/" "/") with true by reflexivity.
  cbn [Method_eqb orb andb].
  unfold root_handler, sendFile.
  rewrite (dot_refused_none _ _ Hdot), Hs.
  cbn [rev app]. unfold finish. rewrite Hm. reflexivity.
Qed.

Lemma deliver_plain (w : World) (req : Request) (hs : Headers) (b : Body) :
  plain req = true -> deliver w req hs b = mkResponse 200 hs b.
Proof. intros H. unfold deliver. rewrite H. reflexivity. Qed.

(** C2, as the claim states it, fails: a GET request to / that carries a
    JSON body the parser rejects is answered with 400, although the entry
    file exists. *)
Lemma get_root_not_for_every_request :
  ~ (forall (w : World) (req : Request),
        method req = GET ->
        path req = "/" ->
        status (respond w req) = 200 /\
        exists c, stat w (entry_file w) = Some (File c) /\
                  resBody (respond w req) = BFile c).
Proof.
  intros H.
  destruct (H Sample.home (Sample.get_malformed "/") eq_refl eq_refl)
    as [Hst _].
  vm_compute in Hst. discriminate Hst.
Qed.

(** C2 (amended): a GET request to / with no conditional or range header
    and a body the JSON parser does not reject is answered with status 200
    and the contents of [index.html]: the one in the static directory
    when it exists, and otherwise the one next to the script
    ([__dirname/public/index.html]) when that file exists and no segment
    of its path starts with a dot. *)
Theorem get_root_serves_entry (w : World) (req : Request) :
  method req = GET ->
  path req = "/" ->
  json_accepts (body req) = true ->
  plain req = true ->
  (forall c, stat w (static_entry w) = Some (File c) ->
             respond w req = mkResponse 200 allow_any_origin (BFile c)) /\
  (forall c, (forall c', stat w (static_entry w) <> Some (File c')) ->
             Path.contains_dotfile (entry_file w) = false ->
             stat w (entry_file w) = Some (File c) ->
             respond w req = mkResponse 200 allow_any_origin (BFile c)).
Proof.
  intros Hm Hp Hb Hpl. split; intros c.
  - intros Hs. unfold respond.
    rewrite (static_hit w req c Hm Hb).
    + cbn [fst]. apply deliver_plain, Hpl.
    + rewrite (static_lookup_root w req Hp), Hs. reflexivity.
  - intros Hno Hdot Hs. unfold respond.
    rewrite (root_route_reached w req c Hm Hp Hb Hno Hdot Hs).
    cbn [fst]. apply deliver_plain, Hpl.
Qed.

Lemma get_root_serves_entry_witness :
  respond Sample.home (Sample.get "/") =
    mkResponse 200 allow_any_origin (BFile "<html>token page</html>") /\
  respond Sample.parent (Sample.get "/") =
    mkResponse 200 allow_any_origin (BFile "<html>token page</html>").
Proof.
  split.
  - apply (proj1 (get_root_serves_entry Sample.home (Sample.get "/")
                    eq_refl eq_refl eq_refl eq_refl)).
    reflexivity.
  - apply (proj2 (get_root_serves_entry Sample.parent (Sample.get "/")
                    eq_refl eq_refl eq_refl eq_refl)).
    + intros c' E. vm_compute in E. discriminate E.
    + reflexivity.
    + reflexivity.
Defined.

(** When the process is started from the directory of the script, the
    static directory and the directory of the entry file are the same. *)
Lemma static_root_at_home (w : World) :
  cwd w = dirname w ->
  static_root w "public" = Path.join (dirname w) "public".
Proof. intros H. unfold static_root. rewrite H. reflexivity. Qed.

(** C3: the code does not keep to the claim.  Started from the parent
    directory, the static layer looks under [/srv/public] while the route
    for / sends [/srv/token-server/public/index.html]: the asset [app.js]
    that lies next to that entry file is not found (404), yet GET / is
    served by the route handler from the script's own [public]. *)
Theorem static_root_follows_cwd :
  static_root Sample.parent "public" = "/srv/public" /\
  entry_file Sample.parent = "/srv/token-server/public/index.html" /\
  stat Sample.parent "/srv/token-server/public/app.js" =
    Some (File "console.log(1)") /\
  handle Sample.parent (Sample.get "/app.js") =
    (mkResponse 404 allow_any_origin (BPage 404), [Lcors; Ljson; Lstatic]) /\
  handle Sample.parent (Sample.get "/") =
    (mkResponse 200 allow_any_origin (BFile "<html>token page</html>"),
     [Lcors; Ljson; Lstatic; Lroot]) /\
  handle Sample.home (Sample.get "/app.js") =
    (mkResponse 200 allow_any_origin (BFile "console.log(1)"),
     [Lcors; Ljson; Lstatic]).
Proof. repeat split; reflexivity. Qed.

(** C4, as the claim states it, fails: a GET request for an existing
    static file that carries a JSON body the parser rejects is answered
    with 400 by the framework, and the static layer is never called. *)
Lemma static_not_reached :
  ~ (forall (w : World) (req : Request) (c : string),
        method req = GET ->
        static_lookup w (static_root w "public") req = Hit c ->
        In Lstatic (called w req)).
Proof.
  intros H.
  specialize (H Sample.home (Sample.get_malformed "/index.html")
                "<html>token page</html>" eq_refl eq_refl).
  vm_compute in H. intuition discriminate.
Qed.

(** C4 (amended): the static layer is registered before the routes, so a
    GET request whose body the JSON parser does not reject and whose path
    resolves to an existing file under the static directory is answered by
    the static layer, and no route handler is called; in particular, when
    [public/index.html] exists under the working directory, such a request
    to / is answered by the static layer and not by the [sendFile] handler. *)
Theorem static_before_routes (w : World) (req : Request) :
  method req = GET ->
  json_accepts (body req) = true ->
  (forall c, static_lookup w (static_root w "public") req = Hit c ->
             handle w req =
               (deliver w req allow_any_origin (BFile c),
                [Lcors; Ljson; Lstatic]) /\
             ~ In Lroot (called w req) /\ ~ In Ltoken (called w req)) /\
  (forall c, path req = "/" ->
             stat w (static_entry w) = Some (File c) ->
             handle w req =
               (deliver w req allow_any_origin (BFile c),
                [Lcors; Ljson; Lstatic]) /\
             ~ In Lroot (called w req)).
Proof.
  intros Hm Hb. split; intros c.
  - intros Hl. unfold called. rewrite (static_hit w req c Hm Hb Hl).
    cbn [snd In]. repeat split; intuition discriminate.
  - intros Hp Hs.
    assert (Hl : static_lookup w (static_root w "public") req = Hit c).
    { rewrite (static_lookup_root w req Hp), Hs. reflexivity. }
    unfold called. rewrite (static_hit w req c Hm Hb Hl).
    cbn [snd In]. split; [reflexivity | intuition discriminate].
Qed.

Lemma static_before_routes_witness :
  handle Sample.home (Sample.get "/") =
    (deliver Sample.home (Sample.get "/") allow_any_origin
             (BFile "<html>token page</html>"),
     [Lcors; Ljson; Lstatic]) /\
  ~ In Lroot (called Sample.home (Sample.get "/")).
Proof.
  apply (proj2 (static_before_routes Sample.home (Sample.get "/")
                  eq_refl eq_refl));
    reflexivity.
Defined.

(** ** Default error handling *)

(** In error mode a stack without error-handling layer ends in the
    framework's last resort, and calls no layer. *)
Lemma run_err_unhandled (w : World) (req : Request) (stack : list Layer) :
  existsb is_error_handler stack = false ->
  forall e hs seen,
    run_err w req stack e hs seen = (finalhandler w (Some e) hs, rev seen).
Proof.
  induction stack as [|l rest IH]; intros Hno e hs seen.
  - reflexivity.
  - cbn [existsb] in Hno. apply orb_false_iff in Hno as [Hl Hrest].
    destruct l; cbn [is_error_handler] in Hl; try discriminate;
      cbn [run_err]; apply IH, Hrest.
Qed.

Lemma app_has_no_error_handler : existsb is_error_handler app = false.
Proof. reflexivity. Qed.

(** A request that no layer answers: not a preflight, accepted by the
    JSON parser, not found by the static layer, matched by no route. *)
Lemma nothing_matches (w : World) (req : Request) :
  method req <> OPTIONS ->
  json_accepts (body req) = true ->
  static_lookup w (static_root w "public") req = Miss ->
  get_applies "/" req = false ->
  get_applies "/api/get-token" req = false ->
  handle w req =
  (finish req (mkResponse 404 allow_any_origin (BPage 404)),
   [Lcors; Ljson; Lstatic]).
Proof.
  intros Hm Hb Hl Hr Ht. unfold handle.
  rewrite (run_past_parsers w req Hm Hb).
  cbn [run]. unfold static at 1. rewrite Hl, Hr, Ht.
  destruct (Method_eqb (method req) GET || Method_eqb (method req) HEAD);
    reflexivity.
Qed.

Lemma status_finish (req : Request) (r : Response) :
  status (finish req r) = status r.
Proof. unfold finish. destruct (Method_eqb (method req) HEAD); reflexivity. Qed.

Lemma resHeaders_finish (req : Request) (r : Response) :
  resHeaders (finish req r) = resHeaders r.
Proof. unfold finish. destruct (Method_eqb (method req) HEAD); reflexivity. Qed.

(** C5, as the claim states it, fails: an OPTIONS request for a path that
    matches no route and no static file is answered by the CORS layer with
    204, not with the default 404. *)
Lemma preflight_is_not_404 :
  ~ (forall (w : World) (req : Request),
        get_applies "/" req = false ->
        get_applies "/api/get-token" req = false ->
        (forall c, static_lookup w (static_root w "public") req <> Hit c) ->
        status (respond w req) = 404).
Proof.
  intros H.
  assert (E : status (respond Sample.home (Sample.preflight "/nope")) = 404).
  { apply H; try reflexivity. intros c E. vm_compute in E. discriminate E. }
  vm_compute in E. discriminate E.
Qed.

(** C5 (amended): a request other than OPTIONS, with a body the JSON
    parser does not reject, for a path that matches no route and under
    which the static layer finds nothing, gets the framework's default
    404; an error without status raised at any point of the stack gets the
    default 500; and the application registers no error-handling layer. *)
Theorem default_error_responses (w : World) (req : Request) :
  (method req <> OPTIONS ->
   json_accepts (body req) = true ->
   static_lookup w (static_root w "public") req = Miss ->
   get_applies "/" req = false ->
   get_applies "/api/get-token" req = false ->
   status (respond w req) = 404 /\
   respond w req = finish req (finalhandler w None allow_any_origin)) /\
  (forall before rest e hs seen,
      app = (before ++ rest)%list ->
      errStatus e = None ->
      run_err w req rest e hs seen =
        (mkResponse 500 hs (error_page w 500), rev seen)) /\
  existsb is_error_handler app = false.
Proof.
  split; [|split].
  - intros Hm Hb Hl Hr Ht. unfold respond.
    rewrite (nothing_matches w req Hm Hb Hl Hr Ht). cbn [fst].
    split; [apply status_finish | reflexivity].
  - intros before rest e hs seen Happ He.
    assert (Hno : existsb is_error_handler rest = false).
    { pose proof app_has_no_error_handler as H. rewrite Happ in H.
      rewrite existsb_app in H. apply orb_false_iff in H. apply H. }
    rewrite (run_err_unhandled w req rest Hno).
    unfold finalhandler, error_status. rewrite He. reflexivity.
  - exact app_has_no_error_handler.
Qed.

Lemma default_error_responses_witness :
  (status (respond Sample.home (Sample.get "/nope")) = 404 /\
   respond Sample.home (Sample.get "/nope") =
     finish (Sample.get "/nope")
            (finalhandler Sample.home None allow_any_origin)) /\
  run_err Sample.home (Sample.get "/")
          [Get Ltoken "/api/get-token" token_handler]
          (mkError None) allow_any_origin [Lroot; Lstatic; Ljson; Lcors] =
    (mkResponse 500 allow_any_origin (error_page Sample.home 500),
     [Lcors; Ljson; Lstatic; Lroot]).
Proof.
  split.
  - apply (proj1 (default_error_responses Sample.home (Sample.get "/nope")));
      try reflexivity.
    discriminate.
  - apply (proj1 (proj2 (default_error_responses Sample.home (Sample.get "/")))
             [Use Lcors cors; Use Ljson json; Use Lstatic (static "public");
              Get Lroot "/" root_handler]);
      reflexivity.
Defined.

(** ** Port, environment and state *)

Lemma finish_same_but_stack (req : Request) (r r' : Response) :
  same_but_stack r r' -> same_but_stack (finish req r) (finish req r').
Proof.
  intros (Hs & Hh & Hb). unfold finish.
  destruct (Method_eqb (method req) HEAD); [|now repeat split].
  cbn. repeat split; auto.
Qed.

Lemma same_but_stack_refl (r : Response) : same_but_stack r r.
Proof. repeat split; now left. Qed.

Section Environment.

Variables (e : list (string * string)) (a : list string) (w : World).

(** Over a stack whose layers read neither the environment nor the
    command line, replacing them changes at most the stack trace of the
    final error page. *)
Lemma run_env_same_but_stack (req : Request) (stack : list Layer) :
  Forall layer_ignores_env stack ->
  (forall hs seen,
      snd (run (with_env_argv e a w) req stack hs seen) =
        snd (run w req stack hs seen) /\
      same_but_stack (fst (run (with_env_argv e a w) req stack hs seen))
                     (fst (run w req stack hs seen))) /\
  (forall err hs seen,
      snd (run_err (with_env_argv e a w) req stack err hs seen) =
        snd (run_err w req stack err hs seen) /\
      same_but_stack
        (fst (run_err (with_env_argv e a w) req stack err hs seen))
        (fst (run_err w req stack err hs seen))).
Proof.
  induction 1 as [|l rest Hl _ [IHrun IHerr]].
  - split; intros; cbn [run run_err fst snd]; split; try reflexivity.
    + apply same_but_stack_refl.
    + unfold finalhandler, error_page. cbn.
      split; [reflexivity|]. split; [reflexivity|].
      right. do 3 eexists. split; reflexivity.
  - split.
    + intros hs seen. destruct l as [i f|i route f|i f]; cbn [run].
      * rewrite (Hl w e a req hs).
        destruct (f w req hs); auto using same_but_stack_refl.
      * destruct (get_applies route req); [|apply IHrun].
        rewrite (Hl w e a req hs).
        destruct (f w req hs); auto using same_but_stack_refl.
      * apply IHrun.
    + intros err hs seen. destruct l as [i f|i route f|i f]; cbn [run_err].
      * apply IHerr.
      * apply IHerr.
      * rewrite (Hl err w e a req hs).
        destruct (f err w req hs); auto using same_but_stack_refl.
Qed.

(** When the two environments agree on whether NODE_ENV is [production],
    nothing changes at all. *)
Lemma run_env_same (req : Request) (stack : list Layer) :
  production (with_env_argv e a w) = production w ->
  Forall layer_ignores_env stack ->
  (forall hs seen,
      run (with_env_argv e a w) req stack hs seen = run w req stack hs seen) /\
  (forall err hs seen,
      run_err (with_env_argv e a w) req stack err hs seen =
        run_err w req stack err hs seen).
Proof.
  intros Hprod. induction 1 as [|l rest Hl _ [IHrun IHerr]].
  - split; intros; cbn [run run_err]; unfold finalhandler, error_page;
      now rewrite ?Hprod.
  - split.
    + intros hs seen. destruct l as [i f|i route f|i f]; cbn [run].
      * rewrite (Hl w e a req hs). destruct (f w req hs); auto.
      * destruct (get_applies route req); [|apply IHrun].
        rewrite (Hl w e a req hs). destruct (f w req hs); auto.
      * apply IHrun.
    + intros err hs seen. destruct l as [i f|i route f|i f]; cbn [run_err].
      * apply IHerr.
      * apply IHerr.
      * rewrite (Hl err w e a req hs). destruct (f err w req hs); auto.
Qed.

End Environment.

(** No layer of the application reads the environment variables or the
    command line. *)
Lemma app_ignores_env : Forall layer_ignores_env app.
Proof.
  unfold app. repeat constructor; cbn [layer_ignores_env];
    intros [c d f r e0 a0 p v l] e a req hs; reflexivity.
Qed.

(** C7, as the claim states it, fails: the environment variable NODE_ENV
    changes the response to a request that ends in the framework's error
    page, here a GET with a JSON body the parser rejects. *)
Lemma response_depends_on_node_env :
  ~ (forall (w : World) (e : list (string * string)) (a : list string)
            (req : Request),
        respond (with_env_argv e a w) req = respond w req).
Proof.
  intros H.
  specialize (H Sample.home [("NODE_ENV", "production")] []
                (Sample.get_malformed "/api/get-token")).
  vm_compute in H. discriminate H.
Qed.

(** C7 (amended): the server listens on the fixed port 3000 whatever the
    environment variables and the command line, which change neither the
    startup log nor, for any request, the layers called, the status or
    the headers of the response.  All they can change is whether the
    framework's error page shows a stack trace, which NODE_ENV decides:
    two runs of one installation that agree on whether NODE_ENV is
    [production] answer every request identically. *)
Theorem port_and_environment (w : World) (e : list (string * string))
        (a : list string) :
  PORT = 3000 /\
  option_map bound (start (with_env_argv e a w)) =
    (if portFree w 3000 then Some 3000 else None) /\
  option_map console (start (with_env_argv e a w)) =
    option_map console (start w) /\
  (forall req,
      called (with_env_argv e a w) req = called w req /\
      same_but_stack (respond (with_env_argv e a w) req) (respond w req)) /\
  (production (with_env_argv e a w) = production w ->
   forall req, handle (with_env_argv e a w) req = handle w req).
Proof.
  split; [reflexivity|]. split; [|split; [|split]].
  - unfold start, listen. change PORT with 3000.
    destruct w as [c d f r e0 a0 p v l]. cbn [with_env_argv portFree].
    destruct (p 3000); reflexivity.
  - unfold start, listen.
    destruct w as [c d f r e0 a0 p v l]. cbn [with_env_argv portFree].
    destruct (p PORT); reflexivity.
  - intros req. unfold called, respond, handle.
    destruct (run_env_same_but_stack e a w req app app_ignores_env)
      as [Hrun _].
    specialize (Hrun [] []).
    destruct (run (with_env_argv e a w) req app [] []) as [r1 s1].
    destruct (run w req app [] []) as [r2 s2].
    cbn [fst snd] in *. destruct Hrun as [Hs Hr].
    split; [exact Hs | now apply finish_same_but_stack].
  - intros Hprod req. unfold handle.
    destruct (run_env_same e a w req app Hprod app_ignores_env) as [Hrun _].
    now rewrite Hrun.
Qed.

Lemma port_and_environment_witness :
  handle (with_env_argv [("HOME", "/root"); ("NODE_ENV", "staging")]
                        ["node"; "server.js"; "--port"; "8080"]
                        Sample.home)
         (Sample.get_malformed "/api/get-token") =
  handle Sample.home (Sample.get_malformed "/api/get-token").
Proof.
  apply (proj2 (proj2 (proj2 (proj2
           (port_and_environment
              Sample.home [("HOME", "/root"); ("NODE_ENV", "staging")]
              ["node"; "server.js"; "--port"; "8080"]))))).
  reflexivity.
Defined.







(** ** Startup log *)

(** C9, as the claim states it, fails on the count: the callback makes
    nine [console.log] calls, not ten. *)
Lemma startup_log_is_not_ten_lines :
  ~ (forall w s, start w = Some s -> length (console s) = 10).
Proof.
  intros H.
  specialize (H Sample.home
                (mkServer Sample.home PORT startup_lines) eq_refl).
  vm_compute in H. discriminate H.
Qed.

(** C9 (amended): when port 3000 can be bound, the server is bound to it
    and the console holds exactly the fixed sequence of startup lines and
    nothing else: nine lines, the last four being the numbered steps. *)
Theorem startup_log (w : World) :
  portFree w PORT = true ->
  start w = Some (mkServer w 3000 startup_lines) /\
  length startup_lines = 9 /\
  startup_lines =
  ["🚀 Clerk Token Server запущено!";
   "📱 Відкрийте: http://localhost:3000";
   "🔑 Отримайте JWT токен через веб-інтерфейс";
   "";
   "Інструкція:";
   "1. Відкрийте http://localhost:3000 у браузері";
   "2. Введіть ваш Clerk Publishable Key";
   "3. Увійдіть в систему";
   "4. Скопіюйте JWT токен для Postman"].
Proof.
  intros H. unfold start, listen. rewrite H.
  repeat split; reflexivity.
Qed.

Lemma startup_log_witness :
  start Sample.home = Some (mkServer Sample.home 3000 startup_lines) /\
  length startup_lines = 9.
Proof.
  pose proof (startup_log Sample.home eq_refl) as [H1 [H2 _]].
  split; assumption.
Defined.

(** ** CORS *)

Section HeaderInvariant.

Variable h : string * string.

Lemma finalhandler_keeps (w : World) (err : option HttpError) (hs : Headers) :
  carries h hs -> carries h (resHeaders (finalhandler w err hs)).
Proof. destruct err; exact (fun H => H). Qed.

(** Both modes of the dispatcher keep the header over a stack of layers
    that keep it. *)
Lemma run_keeps (w : World) (req : Request) (stack : list Layer) :
  Forall (layer_keeps h) stack ->
  (forall hs seen,
      carries h hs -> carries h (resHeaders (fst (run w req stack hs seen)))) /\
  (forall e hs seen,
      carries h hs ->
      carries h (resHeaders (fst (run_err w req stack e hs seen)))).
Proof.
  induction 1 as [|l rest Hl _ [IHrun IHerr]].
  - split; intros; cbn [run run_err fst]; now apply finalhandler_keeps.
  - split.
    + intros hs seen Hc. destruct l as [i f|i route f|i f]; cbn [run].
      * specialize (Hl w req hs Hc).
        destruct (f w req hs); cbn in Hl; auto.
      * destruct (get_applies route req); [|now apply IHrun].
        specialize (Hl w req hs Hc).
        destruct (f w req hs); cbn in Hl; auto.
      * now apply IHrun.
    + intros e hs seen Hc. destruct l as [i f|i route f|i f]; cbn [run_err].
      * now apply IHerr.
      * now apply IHerr.
      * specialize (Hl e w req hs Hc).
        destruct (f e w req hs); cbn in Hl; auto.
Qed.

Lemma deliver_keeps (w : World) (req : Request) (hs : Headers) (b : Body) :
  carries h hs -> carries h (resHeaders (deliver w req hs b)).
Proof.
  intros Hc. unfold deliver.
  destruct (plain req); [exact Hc|].
  destruct (revalidate w req b) as [[st b']|]; exact Hc.
Qed.

Lemma json_keeps : handler_keeps h json.
Proof.
  intros w req hs Hc. unfold json.
  destruct (body req) as [| |[f|]]; exact Hc.
Qed.

Lemma static_keeps (dir : string) : handler_keeps h (static dir).
Proof.
  intros w req hs Hc. unfold static.
  destruct (Method_eqb (method req) GET || Method_eqb (method req) HEAD);
    [|exact Hc].
  destruct (static_lookup w (static_root w dir) req); cbn.
  - now apply deliver_keeps.
  - apply in_or_app. now left.
  - exact Hc.
Qed.

Lemma sendFile_keeps (abs : string) : handler_keeps h (sendFile abs).
Proof.
  intros w req hs Hc. unfold sendFile.
  destruct (dot_refused (express w) (Str.split abs)); [exact Hc|].
  destruct (stat w abs) as [[c|]|]; cbn; try exact Hc.
  now apply deliver_keeps.
Qed.

Lemma res_json_keeps (obj : list (string * string)) :
  handler_keeps h (res_json obj).
Proof.
  intros w req hs Hc. unfold res_json. cbn.
  apply deliver_keeps, in_or_app. now left.
Qed.

End HeaderInvariant.

(** The CORS layer sets the header whatever the request. *)
Lemma cors_sets_origin (w : World) (req : Request) (hs : Headers) :
  outcome_carries ("Access-Control-Allow-Origin", "*") (cors w req hs).
Proof.
  unfold cors, carries.
  destruct (Method_eqb (method req) OPTIONS); cbn.
  - apply in_or_app. right. now left.
  - apply in_or_app. right. now left.
Qed.

(** C10: every response of the server, whatever the request and whichever
    layer produced it, carries [Access-Control-Allow-Origin: *], because
    the CORS layer is the first of the stack. *)
Theorem every_response_allows_any_origin :
  forall (w : World) (req : Request),
    In ("Access-Control-Allow-Origin", "*") (resHeaders (respond w req)) /\
    hd_error (map layer_id app) = Some Lcors.
Proof.
  intros w req. split; [|reflexivity].
  set (h := ("Access-Control-Allow-Origin", "*")).
  unfold respond, handle.
  destruct (run w req app [] []) as [r seen] eqn:E. cbn [fst].
  rewrite resHeaders_finish.
  change r with (fst (r, seen)). rewrite <- E. clear E r seen.
  unfold app. cbn [run].
  pose proof (cors_sets_origin w req []) as Hc. fold h in Hc.
  assert (Hrest : Forall (layer_keeps h)
                    [Use Ljson json; Use Lstatic (static "public");
                     Get Lroot "/" root_handler;
                     Get Ltoken "/api/get-token" token_handler]).
  { repeat constructor.
    - apply json_keeps.
    - apply static_keeps.
    - intros w' req' hs'. apply sendFile_keeps.
    - apply res_json_keeps. }
  destruct (run_keeps h w req _ Hrest) as [Hrun Herr].
  destruct (cors w req []) as [hs'|e hs'|r']; cbn in Hc.
  - apply Hrun, Hc.
  - apply Herr, Hc.
  - exact Hc.
Qed.

(** * Further properties of the stack *)

(** ** Methods *)

(** X1: the routes are registered with [app.get] only, so a POST, PUT,
    PATCH or DELETE request whose body the JSON parser accepts is
    answered with the default 404 whatever its path and whatever the
    files on disk, after the three middlewares and no route handler. *)
Theorem other_methods_are_not_found (w : World) (req : Request) :
  method req <> GET ->
  method req <> HEAD ->
  method req <> OPTIONS ->
  json_accepts (body req) = true ->
  handle w req =
  (mkResponse 404 allow_any_origin (BPage 404), [Lcors; Ljson; Lstatic]).
Proof.
  intros Hg Hh Ho Hb. unfold handle.
  rewrite (run_past_parsers w req Ho Hb).
  cbn [run]. unfold static at 1, get_applies, finish.
  destruct (method req); try congruence; reflexivity.
Qed.

Lemma other_methods_are_not_found_witness :
  handle Sample.home (Scenario.post "/api/get-token") =
  (mkResponse 404 allow_any_origin (BPage 404), [Lcors; Ljson; Lstatic]).
Proof.
  apply other_methods_are_not_found;
    solve [discriminate | reflexivity].
Defined.

(** X2: a JSON body the parser rejects ends the request before the static
    layer and the routes, whatever the method (other than OPTIONS), the
    path and the files: the response is the framework's error page with
    the parser's status (400, 413 or 415) and only the CORS and JSON
    layers have been called. *)
Theorem rejected_body_short_circuits (w : World) (req : Request)
        (f : JsonFault) :
  method req <> OPTIONS ->
  body req = JsonBody (Some f) ->
  handle w req =
  (finish req (mkResponse (fault_status f) allow_any_origin
                          (error_page w (fault_status f))),
   [Lcors; Ljson]) /\
  In (status (respond w req)) [400; 413; 415].
Proof.
  intros Ho Hb.
  assert (E : handle w req =
              (finish req (mkResponse (fault_status f) allow_any_origin
                                      (error_page w (fault_status f))),
               [Lcors; Ljson])).
  { unfold handle, app. cbn [run]. unfold cors at 1.
    destruct (method req) eqn:Em; try congruence; cbn [Method_eqb];
      unfold json at 1; rewrite Hb; cbn [run_err];
      destruct f; reflexivity. }
  split; [exact E|].
  unfold respond. rewrite E. cbn [fst]. rewrite status_finish. cbn [status].
  destruct f; cbn; auto.
Qed.

Lemma rejected_body_short_circuits_witness :
  handle Sample.home (Scenario.post_too_large "/index.html") =
  (mkResponse 413 allow_any_origin (error_page Sample.home 413),
   [Lcors; Ljson]).
Proof.
  apply (proj1 (rejected_body_short_circuits
                  Sample.home (Scenario.post_too_large "/index.html")
                  TooLarge ltac:(discriminate) eq_refl)).
Defined.

(** X3: every OPTIONS request is answered by the CORS layer alone with an
    empty 204 that lists the allowed methods; its body is never parsed,
    no file is looked up, and the answer is the same in every world. *)
Theorem preflight_is_answered_by_cors (w : World) (req : Request) :
  method req = OPTIONS ->
  status (respond w req) = 204 /\
  resBody (respond w req) = BEmpty /\
  called w req = [Lcors] /\
  header "access-control-allow-methods" (resHeaders (respond w req)) =
    Some "GET,HEAD,PUT,PATCH,POST,DELETE" /\
  (forall w', handle w' req = handle w req).
Proof.
  intros Hm. unfold called, respond, handle, app. cbn [run].
  unfold cors at 1. unfold cors at 1. unfold cors at 1. unfold cors at 1.
  unfold finish. rewrite Hm. cbn [Method_eqb].
  repeat split.
  intros w'. unfold cors. rewrite Hm. reflexivity.
Qed.

Lemma preflight_is_answered_by_cors_witness :
  status (respond Sample.home
                  (Scenario.preflight_with_headers "/api/get-token")) = 204 /\
  called Sample.home (Scenario.preflight_with_headers "/api/get-token") =
    [Lcors].
Proof.
  pose proof (preflight_is_answered_by_cors
                Sample.home (Scenario.preflight_with_headers "/api/get-token")
                eq_refl) as [H1 [_ [H3 _]]].
  split; assumption.
Defined.

(** ** The decision table of the stack *)

(** The two routes never match the same path. *)
Lemma routes_disjoint (p : string) :
  route_matches "/" p = true -> route_matches "/api/get-token" p = false.
Proof.
  unfold route_matches. intros H.
  apply orb_true_iff in H as [H|H]; apply String.eqb_eq in H;
    rewrite H; reflexivity.
Qed.

(** What the static layer and the two routes do with a GET or HEAD
    request that is past the CORS and JSON layers. *)
Lemma run_static_and_routes (w : World) (req : Request) :
  Method_eqb (method req) GET || Method_eqb (method req) HEAD = true ->
  run w req
      [Use Lstatic (static "public");
       Get Lroot "/" root_handler;
       Get Ltoken "/api/get-token" token_handler]
      allow_any_origin [Ljson; Lcors] =
  match static_lookup w (static_root w "public") req with
  | Hit c =>
      (deliver w req allow_any_origin (BFile c), [Lcors; Ljson; Lstatic])
  | Redirect loc =>
      (mkResponse 301 (allow_any_origin ++ [("Location", loc)])%list
                  (BPage 301),
       [Lcors; Ljson; Lstatic])
  | Miss =>
      if route_matches "/" (path req) then
        if dot_refused (express w) (Str.split (entry_file w)) then
          (missing w allow_any_origin, [Lcors; Ljson; Lstatic; Lroot])
        else
          match stat w (entry_file w) with
          | Some (File c) =>
              (deliver w req allow_any_origin (BFile c),
               [Lcors; Ljson; Lstatic; Lroot])
          | Some Dir =>
              (not_found allow_any_origin, [Lcors; Ljson; Lstatic; Lroot])
          | None =>
              (missing w allow_any_origin, [Lcors; Ljson; Lstatic; Lroot])
          end
      else if route_matches "/api/get-token" (path req) then
        (deliver w req (allow_any_origin ++ json_type)%list
                 (BJson token_payload),
         [Lcors; Ljson; Lstatic; Ltoken])
      else (not_found allow_any_origin, [Lcors; Ljson; Lstatic])
  end.
Proof.
  intros Hm. cbn [run]. unfold static at 1. rewrite Hm.
  destruct (static_lookup w (static_root w "public") req) as [c|loc|];
    try reflexivity.
  unfold get_applies. rewrite Hm. cbn [andb].
  destruct (route_matches "/" (path req)) eqn:Hr.
  - rewrite (routes_disjoint _ Hr).
    unfold root_handler, sendFile.
    destruct (dot_refused (express w) (Str.split (entry_file w)));
      [reflexivity|].
    destruct (stat w (entry_file w)) as [[c|]|]; reflexivity.
  - destruct (route_matches "/api/get-token" (path req)); reflexivity.
Qed.

(** The GET and HEAD forms of a request through the whole stack. *)
Lemma handle_get_or_head (w : World) (req : Request) :
  Method_eqb (method req) GET || Method_eqb (method req) HEAD = true ->
  json_accepts (body req) = true ->
  handle w req =
  (finish req
     (fst (run w req
               [Use Lstatic (static "public");
                Get Lroot "/" root_handler;
                Get Ltoken "/api/get-token" token_handler]
               allow_any_origin [Ljson; Lcors])),
   snd (run w req
            [Use Lstatic (static "public");
             Get Lroot "/" root_handler;
             Get Ltoken "/api/get-token" token_handler]
            allow_any_origin [Ljson; Lcors])).
Proof.
  intros Hm Hb. unfold handle.
  rewrite run_past_parsers; [|destruct (method req); discriminate|exact Hb].
  destruct (run w req _ allow_any_origin [Ljson; Lcors]); reflexivity.
Qed.

(** A request with a rejected JSON body, through the whole stack. *)
Lemma handle_rejected (w : World) (req : Request) (f : JsonFault) :
  method req <> OPTIONS ->
  body req = JsonBody (Some f) ->
  handle w req =
  (finish req (mkResponse (fault_status f) allow_any_origin
                          (error_page w (fault_status f))),
   [Lcors; Ljson]).
Proof.
  intros Ho Hb. unfold handle, app. cbn [run]. unfold cors at 1.
  destruct (method req) eqn:Em; try congruence; cbn [Method_eqb];
    unfold json at 1; rewrite Hb; cbn [run_err];
    destruct f; reflexivity.
Qed.

Lemma finish_head (req : Request) (r : Response) :
  method req = HEAD -> finish req r = without_body r.
Proof. intros H. unfold finish. rewrite H. reflexivity. Qed.

Lemma finish_get (req : Request) (r : Response) :
  method req = GET -> finish req r = r.
Proof. intros H. unfold finish. rewrite H. reflexivity. Qed.

(** X4: [app.get] routes and the static layer answer HEAD like GET: for a
    request without conditional or range header, the HEAD response has
    the status and headers of the GET response and no body, and the same
    layers are called. *)
Theorem head_mirrors_get (w : World) (req : Request) :
  method req = GET ->
  plain req = true ->
  handle w (as_head req) =
  (without_body (fst (handle w req)), snd (handle w req)).
Proof.
  intros Hm Hpl.
  assert (Hpl' : plain (as_head req) = true) by exact Hpl.
  destruct (body req) as [| |[f|]] eqn:Eb.
  3: { rewrite (handle_rejected w (as_head req) f);
         [|discriminate|exact Eb].
       rewrite (handle_rejected w req f);
         [|rewrite Hm; discriminate|exact Eb].
       cbn [fst snd]. rewrite finish_head by reflexivity.
       rewrite finish_get by exact Hm. reflexivity. }
  all: rewrite (handle_get_or_head w (as_head req));
    [|reflexivity|cbn [body as_head]; rewrite Eb; reflexivity];
    rewrite (handle_get_or_head w req);
    [|rewrite Hm; reflexivity|rewrite Eb; reflexivity];
    rewrite (run_static_and_routes w (as_head req)) by reflexivity;
    rewrite (run_static_and_routes w req) by (rewrite Hm; reflexivity);
    change (static_lookup w (static_root w "public") (as_head req))
      with (static_lookup w (static_root w "public") req);
    change (path (as_head req)) with (path req);
    destruct (static_lookup w (static_root w "public") req);
    [ | | destruct (route_matches "/" (path req));
          [ destruct (dot_refused (express w) (Str.split (entry_file w)));
            [|destruct (stat w (entry_file w)) as [[c|]|]]
          | destruct (route_matches "/api/get-token" (path req)) ] ];
    rewrite ?(deliver_plain w (as_head req)) by exact Hpl';
    rewrite ?(deliver_plain w req) by exact Hpl;
    cbn [fst snd];
    rewrite finish_head by reflexivity;
    rewrite finish_get by exact Hm;
    reflexivity.
Qed.

Lemma head_mirrors_get_witness :
  handle Sample.home (as_head (Sample.get "/api/get-token")) =
  (without_body (fst (handle Sample.home (Sample.get "/api/get-token"))),
   snd (handle Sample.home (Sample.get "/api/get-token"))).
Proof.
  apply head_mirrors_get; reflexivity.
Defined.

(** A request that is neither GET, HEAD nor OPTIONS, through the stack. *)
Lemma handle_not_get (w : World) (req : Request) :
  Method_eqb (method req) GET || Method_eqb (method req) HEAD = false ->
  method req <> OPTIONS ->
  json_accepts (body req) = true ->
  handle w req = (not_found allow_any_origin, [Lcors; Ljson; Lstatic]).
Proof.
  intros Hm Ho Hb. unfold handle.
  rewrite (run_past_parsers w req Ho Hb).
  cbn [run]. unfold static at 1, get_applies, finish. rewrite Hm.
  destruct (method req); try discriminate Hm; reflexivity.
Qed.

Lemma handle_options (w : World) (req : Request) :
  method req = OPTIONS -> called w req = [Lcors].
Proof.
  intros Hm. unfold called, handle, app. cbn [run].
  unfold cors at 1. rewrite Hm. reflexivity.
Qed.

(** ** The entry file *)

(** X5: when the static directory has no [index.html], a GET request to /
    reaches the [sendFile] handler; when the file next to the script is
    missing, or when the framework is Express 5 and the file lies below a
    directory whose name starts with a dot (although it exists), the
    handler's error ends in the framework's 404 error page. *)
Theorem missing_entry_is_not_found (w : World) (req : Request) :
  method req = GET ->
  path req = "/" ->
  json_accepts (body req) = true ->
  (forall c, stat w (static_entry w) <> Some (File c)) ->
  stat w (entry_file w) = None \/
  (express w = Express5 /\ Path.contains_dotfile (entry_file w) = true) ->
  handle w req =
  (missing w allow_any_origin, [Lcors; Ljson; Lstatic; Lroot]).
Proof.
  intros Hm Hp Hb Hno Hentry.
  rewrite (handle_get_or_head w req) by (try rewrite Hm; easy).
  rewrite (run_static_and_routes w req) by (rewrite Hm; reflexivity).
  rewrite (static_lookup_root w req Hp).
  assert (Hmiss : match stat w (static_entry w) with
                  | Some (File c0) => Hit c0
                  | _ => Miss
                  end = Miss).
  { destruct (stat w (static_entry w)) as [[c'|]|] eqn:E; try reflexivity.
    exfalso. exact (Hno c' eq_refl). }
  rewrite Hmiss, Hp.
  replace (route_matches "/" "/") with true by reflexivity.
  rewrite (finish_get req) by exact Hm.
  destruct Hentry as [Hnone|[Hv Hdot]].
  - rewrite Hnone.
    destruct (dot_refused (express w) (Str.split (entry_file w)));
      reflexivity.
  - rewrite Hv.
    change (dot_refused Express5 (Str.split (entry_file w)))
      with (Path.contains_dotfile (entry_file w)).
    rewrite Hdot. reflexivity.
Qed.

Lemma missing_entry_is_not_found_witness :
  stat Scenario.dotted (entry_file Scenario.dotted) =
    Some (File "<html>token page</html>") /\
  handle Scenario.dotted (Sample.get "/") =
    (missing Scenario.dotted allow_any_origin,
     [Lcors; Ljson; Lstatic; Lroot]).
Proof.
  split; [reflexivity|].
  apply missing_entry_is_not_found; try reflexivity.
  - intros c E. vm_compute in E. discriminate E.
  - right. split; reflexivity.
Defined.

(** ** The static layer *)

(** X7: a request whose path, once normalised, ends in a name that starts
    with a dot (a dotfile such as /.env, also written /img/../.env) is
    never served, on either line of the framework and whatever the files
    on disk: the static layer passes and no route matches, so the request
    gets the default 404. *)
Theorem dotfiles_are_not_served (w : World) (req : Request) :
  method req <> OPTIONS ->
  json_accepts (body req) = true ->
  Str.ends_with_slash (path req) = false ->
  Path.is_dot_segment (last (Str.normalize (path req)) "") = true ->
  handle w req =
  (finish req (not_found allow_any_origin), [Lcors; Ljson; Lstatic]).
Proof.
  intros Ho Hb Hs Hd.
  destruct (Method_eqb (method req) GET || Method_eqb (method req) HEAD)
    eqn:Hm.
  - rewrite (handle_get_or_head w req Hm Hb).
    rewrite (run_static_and_routes w req Hm).
    assert (Hl : static_lookup w (static_root w "public") req = Miss).
    { unfold static_lookup. rewrite Hs, app_nil_r.
      rewrite (dot_refused_last _ _ Hd).
      destruct (Str.has_nul (path req)); [reflexivity|].
      destruct (Path.escapes (Str.normalize (path req))); reflexivity. }
    rewrite Hl.
    destruct (dotfile_matches_no_route _ Hd) as [-> ->]. reflexivity.
  - rewrite (handle_not_get w req Hm Ho Hb).
    unfold finish.
    destruct (method req); try discriminate Hm; reflexivity.
Qed.

Lemma dotfiles_are_not_served_witness :
  stat Scenario.no_entry "/srv/token-server/public/.env" =
    Some (File "SECRET=1") /\
  handle Scenario.no_entry (Sample.get "/img/../.env") =
    (not_found allow_any_origin, [Lcors; Ljson; Lstatic]).
Proof.
  split; [reflexivity|].
  apply (dotfiles_are_not_served Scenario.no_entry
           (Sample.get "/img/../.env"));
    solve [discriminate | reflexivity].
Defined.

(** ** Control flow *)

(** X8: whatever the request and the world, the layers called are one of
    five sequences: the CORS layer alone, then the JSON parser, then the
    static layer, then at most one of the two route handlers.  Layers run
    in registration order and the two handlers never both run. *)
Theorem layers_called (w : World) (req : Request) :
  In (called w req) call_paths.
Proof.
  unfold call_paths.
  destruct (Method_eqb (method req) OPTIONS) eqn:Eo.
  { left. symmetry. apply handle_options.
    destruct (method req); try discriminate Eo; reflexivity. }
  assert (Ho : method req <> OPTIONS)
    by (intros E; rewrite E in Eo; discriminate Eo).
  destruct (body req) as [| |[f|]] eqn:Eb.
  3: { right. left. unfold called.
       now rewrite (handle_rejected w req f Ho Eb). }
  all: assert (Hb : json_accepts (body req) = true)
         by (rewrite Eb; reflexivity);
    destruct (Method_eqb (method req) GET || Method_eqb (method req) HEAD)
      eqn:Hm;
    [ unfold called;
      rewrite (handle_get_or_head w req Hm Hb);
      rewrite (run_static_and_routes w req Hm);
      destruct (static_lookup w (static_root w "public") req);
      [ cbn; tauto | cbn; tauto | ];
      destruct (route_matches "/" (path req));
      [ destruct (dot_refused (express w) (Str.split (entry_file w)));
        [cbn; tauto|];
        destruct (stat w (entry_file w)) as [[c|]|]; cbn; tauto
      | destruct (route_matches "/api/get-token" (path req)); cbn; tauto ]
    | unfold called; rewrite (handle_not_get w req Hm Ho Hb); cbn; tauto ].
Qed.



(** ** Normalised paths stay below their root *)

Lemma split_no_slash (p : string) :
  Forall (fun seg => Str.has_slash seg = false) (Str.split p).
Proof.
  induction p as [|c r IH]; cbn [Str.split].
  - constructor; [reflexivity|constructor].
  - destruct (Ascii.eqb c "/"%char) eqn:Ec.
    + constructor; [reflexivity|exact IH].
    + destruct (Str.split r) as [|h t].
      * constructor; [|constructor]. cbn. now rewrite Ec.
      * inversion IH as [|? ? Hh Ht]. subst.
        constructor; [|exact Ht]. cbn [Str.has_slash]. now rewrite Ec, Hh.
Qed.

Lemma hd_rev_last (l : list string) :
  hd "" (rev l) = last l "".
Proof.
  induction l as [|x [|y r] IH]; try reflexivity.
  change (last (x :: y :: r) "") with (last (y :: r) ""). rewrite <- IH.
  cbn [rev]. destruct (rev r ++ [y])%list eqn:E; [|reflexivity].
  destruct (rev r); discriminate E.
Qed.

Lemma escapes_hd (l : list string) :
  hd "" l = ".." -> Path.escapes l = true.
Proof. destruct l; cbn; intros H; [discriminate H | now rewrite H]. Qed.

(** Once the path has left its root it does not come back. *)
Lemma resolve_escaped (segs acc : list string) :
  last acc "" = ".." ->
  Path.escapes (Str.resolve acc segs) = true.
Proof.
  revert acc. induction segs as [|seg rest IH]; intros acc Hl.
  - cbn [Str.resolve]. apply escapes_hd. now rewrite hd_rev_last.
  - cbn [Str.resolve].
    destruct (String.eqb seg "" || String.eqb seg "."); [now apply IH|].
    assert (Hne : acc <> []) by (intros ->; discriminate Hl).
    destruct acc as [|x acc']; [now elim Hne|].
    assert (Hpush : forall y, last (y :: x :: acc') "" = "..")
      by (intros y; exact Hl).
    destruct (String.eqb seg "..").
    + destruct (String.eqb x "..") eqn:Ex; [apply IH, Hpush|].
      apply IH. destruct acc' as [|z r]; [|exact Hl].
      cbn in Hl. rewrite Hl in Ex. discriminate Ex.
    + apply IH, Hpush.
Qed.

(** A normalised path that has not left its root is made of proper
    names only. *)
Lemma resolve_proper (segs acc : list string) :
  Forall (fun seg => Str.has_slash seg = false) segs ->
  forallb Path.proper acc = true ->
  Path.escapes (Str.resolve acc segs) = false ->
  forallb Path.proper (Str.resolve acc segs) = true.
Proof.
  revert acc. induction segs as [|seg rest IH]; intros acc Hs Hacc Hesc.
  - cbn [Str.resolve]. apply forallb_forall. intros x Hx.
    apply in_rev in Hx.
    now apply (proj1 (forallb_forall Path.proper acc) Hacc).
  - inversion Hs as [|? ? Hseg Hrest]. subst.
    cbn [Str.resolve] in *.
    destruct (String.eqb seg "") eqn:E0; [now apply IH|].
    destruct (String.eqb seg ".") eqn:E1; [now apply IH|].
    cbn [orb] in *.
    destruct (String.eqb seg "..") eqn:E2.
    + destruct acc as [|x acc'].
      * rewrite (resolve_escaped rest [".."] eq_refl) in Hesc.
        discriminate Hesc.
      * cbn [forallb] in Hacc. apply andb_true_iff in Hacc as [Hx Hacc'].
        assert (Ex : String.eqb x ".." = false).
        { unfold Path.proper in Hx.
          destruct (String.eqb x ".."); [|reflexivity].
          rewrite !andb_false_r in Hx. cbn in Hx.
          now rewrite ?andb_false_r in Hx. }
        rewrite Ex in *. now apply IH.
    + apply IH; try assumption.
      cbn [forallb]. rewrite Hacc, andb_true_r.
      unfold Path.proper. now rewrite E0, E1, E2, Hseg.
Qed.

Lemma normalize_proper (p : string) :
  Path.escapes (Str.normalize p) = false ->
  forallb Path.proper (Str.normalize p) = true.
Proof.
  intros H. apply resolve_proper; [apply split_no_slash|reflexivity|exact H].
Qed.

(** Whatever the static layer finds is a file below its root: the root,
    then proper names, then possibly [index.html]. *)
Lemma static_hit_under_root (w : World) (req : Request) (c : string) :
  static_lookup w (static_root w "public") req = Hit c ->
  exists segs,
    forallb Path.proper segs = true /\
    (stat w (Path.under (static_root w "public") segs) = Some (File c) \/
     stat w (Path.join (Path.under (static_root w "public") segs)
                       "index.html") = Some (File c)).
Proof.
  unfold static_lookup.
  destruct (Str.has_nul (path req)); [discriminate|].
  destruct (Path.escapes (Str.normalize (path req))) eqn:Eesc;
    [discriminate|].
  destruct (dot_refused _ _); [discriminate|].
  intros H. exists (Str.normalize (path req)).
  split; [now apply normalize_proper|].
  destruct (Str.ends_with_slash (path req)).
  - right. destruct (stat w _) as [[c'|]|]; try discriminate H.
    now inversion H.
  - left. destruct (stat w _) as [[c'|]|]; try discriminate H.
    now inversion H.
Qed.

(** X10: the only file contents the server ever sends are those of a file
    inside the static directory, that is the static root followed by
    proper names (none empty, none [.] or [..], none with a slash) and
    possibly [index.html], or those of the entry file next to the script,
    requested through the route for /. *)
Theorem only_public_files_are_sent (w : World) (req : Request) (c : string) :
  plain req = true ->
  resBody (respond w req) = BFile c ->
  (exists segs,
      forallb Path.proper segs = true /\
      (stat w (Path.under (static_root w "public") segs) = Some (File c) \/
       stat w (Path.join (Path.under (static_root w "public") segs)
                         "index.html") = Some (File c))) \/
  (route_matches "/" (path req) = true /\
   stat w (entry_file w) = Some (File c)).
Proof.
  intros Hpl Hbody. unfold respond in Hbody.
  destruct (Method_eqb (method req) OPTIONS) eqn:Eo.
  { exfalso. unfold handle, app in Hbody. cbn [run] in Hbody.
    unfold cors at 1 in Hbody. rewrite Eo in Hbody.
    unfold finish in Hbody.
    destruct (Method_eqb (method req) HEAD); discriminate Hbody. }
  assert (Ho : method req <> OPTIONS)
    by (intros E; rewrite E in Eo; discriminate Eo).
  assert (Hfin : forall r, resBody (finish req r) = BFile c ->
                           resBody r = BFile c).
  { intros r. unfold finish.
    destruct (Method_eqb (method req) HEAD); [discriminate|easy]. }
  destruct (body req) as [| |[f|]] eqn:Eb.
  3: { exfalso. rewrite (handle_rejected w req f Ho Eb) in Hbody.
       apply Hfin in Hbody. discriminate Hbody. }
  all: assert (Hb : json_accepts (body req) = true)
         by (rewrite Eb; reflexivity);
    destruct (Method_eqb (method req) GET || Method_eqb (method req) HEAD)
      eqn:Hm;
    [ rewrite (handle_get_or_head w req Hm Hb) in Hbody;
      rewrite (run_static_and_routes w req Hm) in Hbody;
      cbn [fst] in Hbody; apply Hfin in Hbody;
      destruct (static_lookup w (static_root w "public") req)
        as [c0|loc|] eqn:El;
      [ rewrite (deliver_plain w req _ _ Hpl) in Hbody;
        cbn in Hbody; inversion Hbody; subst c0;
        left; exact (static_hit_under_root w req c El)
      | discriminate Hbody
      | destruct (route_matches "/" (path req)) eqn:Er;
        [ destruct (dot_refused (express w) (Str.split (entry_file w)));
          [discriminate Hbody|];
          destruct (stat w (entry_file w)) as [[c0|]|] eqn:Es;
          try discriminate Hbody;
          rewrite (deliver_plain w req _ _ Hpl) in Hbody;
          cbn in Hbody; inversion Hbody; subst c0;
          right; split; reflexivity
        | destruct (route_matches "/api/get-token" (path req));
          [ rewrite (deliver_plain w req _ _ Hpl) in Hbody |];
          discriminate Hbody ] ]
    | exfalso; rewrite (handle_not_get w req Hm Ho Hb) in Hbody;
      discriminate Hbody ].
Qed.

Lemma only_public_files_are_sent_witness :
  (exists segs,
      forallb Path.proper segs = true /\
      (stat Sample.home (Path.under (static_root Sample.home "public") segs)
         = Some (File "console.log(1)") \/
       stat Sample.home
            (Path.join (Path.under (static_root Sample.home "public") segs)
                       "index.html") = Some (File "console.log(1)"))) \/
  (route_matches "/" "/img/../app.js" = true /\
   stat Sample.home (entry_file Sample.home) = Some (File "console.log(1)")).
Proof.
  apply (only_public_files_are_sent Sample.home
           (Sample.get "/img/../app.js") "console.log(1)");
    reflexivity.
Defined.

(** ** What the routes ignore *)

(** X11: the token route is matched without regard to letter case and
    with an optional trailing slash: a GET request whose lower-cased path
    is /api/get-token, with or without a final slash, gets the JSON
    object when it reaches the route. *)
Theorem token_route_ignores_case_and_slash (w : World) (req : Request) :
  method req = GET ->
  Str.lower (path req) = "/api/get-token" \/
  Str.lower (path req) = "/api/get-token/" ->
  json_accepts (body req) = true ->
  plain req = true ->
  static_lookup w (static_root w "public") req = Miss ->
  handle w req =
  (mkResponse 200 (allow_any_origin ++ json_type)%list (BJson token_payload),
   [Lcors; Ljson; Lstatic; Ltoken]).
Proof.
  intros Hm Hp Hb Hpl Hl.
  rewrite (handle_get_or_head w req) by (try rewrite Hm; easy).
  rewrite (run_static_and_routes w req) by (rewrite Hm; reflexivity).
  rewrite Hl. unfold route_matches.
  destruct Hp as [-> | ->]; cbn [fst snd];
    rewrite (finish_get req) by exact Hm;
    rewrite (deliver_plain w req _ _ Hpl); reflexivity.
Qed.

Lemma token_route_ignores_case_and_slash_witness :
  handle Sample.home (Sample.get "/API/Get-Token/") =
  (mkResponse 200 (allow_any_origin ++ json_type)%list (BJson token_payload),
   [Lcors; Ljson; Lstatic; Ltoken]).
Proof.
  apply token_route_ignores_case_and_slash;
    solve [reflexivity | right; reflexivity].
Defined.

Lemma handle_options_same (w w' : World) (req req' : Request) :
  method req = OPTIONS ->
  method req' = OPTIONS ->
  reqHeaders req' = reqHeaders req ->
  handle w' req' = handle w req.
Proof.
  intros Hm Hm' Hh. unfold handle, app. cbn [run].
  unfold cors, finish. rewrite Hm, Hm', Hh. reflexivity.
Qed.

(** The query string only shows in the target of a redirection. *)
Lemma static_lookup_with_query (w : World) (root q : string) (req : Request) :
  (forall loc, static_lookup w root req <> Redirect loc) ->
  static_lookup w root (with_query q req) = static_lookup w root req.
Proof.
  unfold static_lookup. cbn [path query with_query]. intros H.
  destruct (Str.has_nul (path req)); [reflexivity|].
  destruct (Path.escapes (Str.normalize (path req))); [reflexivity|].
  destruct (dot_refused _ _); [reflexivity|].
  destruct (Str.ends_with_slash (path req)); [reflexivity|].
  destruct (stat w _) as [[c|]|]; try reflexivity.
  exfalso. exact (H _ eq_refl).
Qed.

(** X12: no layer reads the query string: unless the static layer
    redirects a directory, a request without conditional or range header
    gets the same response, through the same layers, whatever its query
    string. *)
Theorem query_is_ignored (w : World) (req : Request) (q : string) :
  plain req = true ->
  (forall loc,
      static_lookup w (static_root w "public") req <> Redirect loc) ->
  handle w (with_query q req) = handle w req.
Proof.
  intros Hpl Hnr.
  assert (Hpl' : plain (with_query q req) = true) by exact Hpl.
  destruct (Method_eqb (method req) OPTIONS) eqn:Eo.
  { apply handle_options_same; cbn [method with_query reqHeaders];
      try reflexivity;
      destruct (method req); try discriminate Eo; reflexivity. }
  assert (Ho : method req <> OPTIONS)
    by (intros E; rewrite E in Eo; discriminate Eo).
  destruct (body req) as [| |[f|]] eqn:Eb.
  3: { rewrite (handle_rejected w (with_query q req) f Ho Eb).
       rewrite (handle_rejected w req f Ho Eb). reflexivity. }
  all: assert (Hb : json_accepts (body req) = true)
         by (rewrite Eb; reflexivity);
    destruct (Method_eqb (method req) GET || Method_eqb (method req) HEAD)
      eqn:Hm;
    [ rewrite (handle_get_or_head w (with_query q req) Hm Hb);
      rewrite (handle_get_or_head w req Hm Hb);
      rewrite (run_static_and_routes w (with_query q req) Hm);
      rewrite (run_static_and_routes w req Hm);
      rewrite (static_lookup_with_query w _ q req Hnr);
      change (path (with_query q req)) with (path req);
      destruct (static_lookup w (static_root w "public") req);
      [ | | destruct (route_matches "/" (path req));
            [ destruct (dot_refused (express w) (Str.split (entry_file w)));
              [|destruct (stat w (entry_file w)) as [[c|]|]]
            | destruct (route_matches "/api/get-token" (path req)) ] ];
      rewrite ?(deliver_plain w (with_query q req)) by exact Hpl';
      rewrite ?(deliver_plain w req) by exact Hpl;
      reflexivity
    | rewrite (handle_not_get w (with_query q req) Hm Ho Hb);
      rewrite (handle_not_get w req Hm Ho Hb); reflexivity ].
Qed.

Lemma query_is_ignored_witness :
  handle Sample.home (with_query "debug=1&x=%7B" (Sample.get "/app.js")) =
  handle Sample.home (Sample.get "/app.js").
Proof.
  apply query_is_ignored; [reflexivity|].
  intros loc E. vm_compute in E. discriminate E.
Defined.

(** ** Startup on a busy port *)


